(** * Health-metric evaluation and comparison engine

    A shallow embedding of the rule-based core of [health_app/views.py]:
    [generate_health_overview] (the classifier ladders),
    [get_fat_normal_range], [get_muscle_normal_range],
    [get_triglycerides_status], [get_comparison_text],
    [generate_comparison_table] and [generate_summary_info].

    Numbers.  Blood-pressure fields are Python integers and are modelled
    in [Z].  Every other measurement is a [Decimal] that the code converts
    with [float(...)] before comparing it with literals; it is modelled as
    an exact rational in [Q], and each literal of the source ([18.5],
    [22.9], ...) is the rational it denotes.  Conversion to binary floating
    point is monotone and keeps decimals of this size apart, so for the
    order comparisons against literals this is what the program computes
    on decimal inputs.  The waist test subtracts before it compares, and
    rounding decides it at the edge: it is modelled in binary64, with the
    primitive floats of the kernel.  The deltas of the comparison table
    are modelled with exact subtraction.

    Optional laboratory values are [option Q]; the source tests them by
    truthiness ([if record.cholesterol:]), under which [None] and a zero
    decimal are both false. *)

From Stdlib Require Import ZArith QArith Qabs Lqa Lia.
From Stdlib Require Import Bool String List.
From Stdlib Require Import Floats.
From Stdlib Require Uint63.
Import ListNotations.

Local Open Scope string_scope.
Local Open Scope Z_scope.
Local Open Scope Q_scope.

(** ** Python comparisons on exact rationals *)

Module PyNum.

(** [x < y] *)
Definition Qltb (x y : Q) : bool :=
  (Qnum x * QDen y <? Qnum y * QDen x)%Z.

(** [x <= y] *)
Definition Qleb (x y : Q) : bool := Qle_bool x y.

(** [x > y] and [x >= y] *)
Definition Qgtb (x y : Q) : bool := Qltb y x.
Definition Qgeb (x y : Q) : bool := Qleb y x.

(** The chained comparison [lo <= x <= hi]. *)
Definition Qbetween (lo x hi : Q) : bool := Qleb lo x && Qleb x hi.
Definition Zbetween (lo x hi : Z) : bool := (lo <=? x)%Z && (x <=? hi)%Z.

(** Truthiness of a nullable decimal: [None] and zero are false. *)
Definition truthy (o : option Q) : bool :=
  match o with
  | Some q => negb (Qeq_bool q 0)
  | None => false
  end.

(** [if field: k(float(field))], the guard of every optional metric. *)
Definition if_available {A : Type} (o : option Q) (k : Q -> list A) : list A :=
  match o with
  | Some q => if Qeq_bool q 0 then [] else k q
  | None => []
  end.

(** [float(n)] on an integer. *)
Definition float_of_Z (z : Z) : float :=
  match z with
  | Z0 => 0%float
  | Zpos _ => of_uint63 (Uint63.of_Z z)
  | Zneg p => (- of_uint63 (Uint63.of_Z (Zpos p)))%float
  end.

(** [float(d)] on a decimal: the binary64 number nearest to it.  The
    quotient of two integers that binary64 holds exactly is rounded once,
    as the conversion is, which covers the decimals of at most fifteen
    digits. *)
Definition float_of_decimal (q : Q) : float :=
  (float_of_Z (Qnum q) / float_of_Z (Zpos (Qden q)))%float.

End PyNum.
Import PyNum.

(** ** Data model *)

(** The fields of a [HealthRecord] row that the core reads. *)
Record HealthRecord : Type := mkRecord {
  blood_pressure_systolic : Z;
  blood_pressure_diastolic : Z;
  height : Q;
  waist : Q;
  bmi : Q;
  fat_percent : Q;
  visceral_fat : Q;
  muscle_percent : Q;
  cholesterol : option Q;
  ldl : option Q;
  hdl : option Q;
  fbs : option Q;
  triglycerides : option Q
}.

(** The profile as the core sees it: [profile.gender] and the result of
    [profile.get_age_years()]. *)
Record Profile : Type := mkProfile {
  gender : string;
  age_years : Z
}.

(** An overview item, the dictionary built by [create_item].  The field
    [color] carries the Bootstrap alert class ([success], [warning],
    [danger]): it is what the specification calls the severity tier.  The
    field [severity] keeps its default [normal] in all calls but the
    very-high muscle ones. *)
Record Item : Type := mkItem {
  text : string;
  color : string;
  severity : string
}.

Definition create_item3 (t c s : string) : Item :=
  {| text := t; color := c; severity := s |}.

(** [create_item(text, color)] with the default [severity='normal']. *)
Definition create_item (t c : string) : Item := create_item3 t c "normal".

(** ** Message texts of [generate_health_overview] *)

Module Msg.

Definition bp_optimal := "คุณมีความดันโลหิตในระดับเหมาะสม".
Definition bp_normal := "คุณมีความดันโลหิตในระดับปกติ".
Definition bp_advice_keep :=
  "คำแนะนำ: ควบคุมอาหาร, มีกิจกรรมทางกาย และวัดความดันสม่ำเสมอ".
Definition bp_elevated := "คุณมีความดันโลหิตสูงกว่าปกติ".
Definition bp_advice_elevated :=
  "คำแนะนำ: ลดน้ำหนักหากมีน้ำหนักเกิน, หลีกเลี่ยงความเครียด บุหรี่, มีกิจกรรมทางกายอย่างสม่ำเสมอ, ลดการกินเค็ม".
Definition bp_stage1 := "คุณอาจเป็นโรคความดันโลหิตสูงระดับที่ 1".
Definition bp_stage2 := "คุณอาจเป็นโรคความดันโลหิตสูงระดับที่ 2".
Definition bp_advice_doctor :=
  "คำแนะนำ: ควรรีบปรึกษาแพทย์เพื่อรับการวินิจฉัยและรับการรักษาที่เหมาะสม รวมถึงเข้าสู่กระบวนการปรับเปลี่ยนพฤติกรรม".
Definition bp_stage3 := "คุณอาจเป็นโรคความดันโลหิตสูงระดับที่ 3".
Definition bp_advice_now := "คำแนะนำ: ควรรีบพบแพทย์ทันที".
Definition bp_isolated_systolic := "คุณอาจเป็นโรคความดันโลหิตสูงเฉพาะตัวบน".
Definition bp_isolated_diastolic := "คุณอาจเป็นโรคความดันโลหิตสูงเฉพาะตัวล่าง".
Definition bp_advice_staff := "คำแนะนำ: ควรปรึกษาบุคลากรทางการแพทย์".

Definition waist_normal := "เส้นรอบเอวของคุณอยู่ในเกณฑ์ปกติ".
Definition waist_exceeds := "เส้นรอบเอวของคุณเกินเกณฑ์".
Definition waist_very_good := "รอบเอวของคุณอยู่ในเกณฑ์ดีมาก".

Definition bmi_under := "น้อยกว่าปกติ/ผอม - ภาวะเสี่ยงต่อโรค มากกว่าคนปกติ".
Definition bmi_normal := "ปกติ/สุขภาพดี - ภาวะเสี่ยงต่อโรค เท่ากับคนปกติ".
Definition bmi_over1 :=
  "ท้วม มีภาวะน้ำหนักเกินหรือโรคอ้วนระดับ 1 แนะนำให้ดูมวลกล้ามเนื้อประกอบด้วย - ภาวะเสี่ยงต่อโรค อันตรายระดับ 1 ".
Definition bmi_over2 :=
  "อ้วน มีภาวะน้ำหนักเกินหรือโรคอ้วนระดับ 2 - ภาวะเสี่ยงต่อโรค อันตรายระดับ 2 ".
Definition bmi_obese3 :=
  "อ้วนมาก มีภาวะน้ำหนักเกินมากอย่างมากหรือโรคอ้วนระดับ 3 - ภาวะเสี่ยงต่อโรค อันตรายระดับ 3".

End Msg.

(** ** The classifier ladders of [generate_health_overview] *)

(** Blood pressure, lines 108-131: an [if]/[elif] chain without [else]. *)
Definition bp_overview (systolic diastolic : Z) : list Item :=
  if (systolic <? 120)%Z && (diastolic <? 80)%Z then
    [create_item Msg.bp_optimal "success";
     create_item Msg.bp_advice_keep "success"]
  else if Zbetween 120 systolic 129 && Zbetween 80 diastolic 84 then
    [create_item Msg.bp_normal "success";
     create_item Msg.bp_advice_keep "success"]
  else if Zbetween 130 systolic 139 || Zbetween 85 diastolic 89 then
    [create_item Msg.bp_elevated "warning";
     create_item Msg.bp_advice_elevated "warning"]
  else if Zbetween 140 systolic 159 || Zbetween 90 diastolic 99 then
    [create_item Msg.bp_stage1 "warning";
     create_item Msg.bp_advice_doctor "warning"]
  else if Zbetween 160 systolic 179 || Zbetween 100 diastolic 109 then
    [create_item Msg.bp_stage2 "warning";
     create_item Msg.bp_advice_doctor "warning"]
  else if (systolic >=? 180)%Z || (diastolic >=? 110)%Z then
    [create_item Msg.bp_stage3 "danger";
     create_item Msg.bp_advice_now "danger"]
  else if (systolic >=? 140)%Z && (diastolic <? 90)%Z then
    [create_item Msg.bp_isolated_systolic "danger";
     create_item Msg.bp_advice_staff "danger"]
  else if (systolic <? 140)%Z && (diastolic >=? 90)%Z then
    [create_item Msg.bp_isolated_diastolic "danger";
     create_item Msg.bp_advice_staff "danger"]
  else [].

(** Waist against half the height, lines 133-143, in binary64 as the
    source computes it: the two conversions, the division, the
    subtraction and the absolute value are those of the floats. *)
Definition waist_overview (waist height : Q) : list Item :=
  let waist := float_of_decimal waist in
  let height := float_of_decimal height in
  let waist_threshold := (height / 2)%float in
  if (PrimFloat.abs (waist - waist_threshold) <? 1)%float then
    [create_item Msg.waist_normal "success"]
  else if (waist_threshold <? waist)%float then
    [create_item Msg.waist_exceeds "danger"]
  else
    [create_item Msg.waist_very_good "success"].

(** BMI, lines 146-157; the last branch is a bare [else]. *)
Definition bmi_overview (bmi : Q) : list Item :=
  if Qltb bmi 18.5 then
    [create_item Msg.bmi_under "warning"]
  else if Qbetween 18.5 bmi 22.9 then
    [create_item Msg.bmi_normal "success"]
  else if Qbetween 23 bmi 24.9 then
    [create_item Msg.bmi_over1 "warning"]
  else if Qbetween 25 bmi 30 then
    [create_item Msg.bmi_over2 "warning"]
  else
    [create_item Msg.bmi_obese3 "danger"].

Module MsgBody.

Definition fat_low := "เปอร์เซ็นต์ไขมัน: ต่ำ".
Definition fat_normal := "เปอร์เซ็นต์ไขมัน: ปกติ".
Definition fat_elevated := "เปอร์เซ็นต์ไขมัน: เริ่มอ้วน ".
Definition fat_high :=
  "เปอร์เซ็นต์ไขมัน: อ้วน - คุณมีไขมันในร่างกายมากเกินไป ".

Definition vf_normal := "ไขมันในช่องท้อง: ปกติ".
Definition vf_high :=
  "ไขมันในช่องท้อง: สูง - คุณมีภาวะเสี่ยงจากการมีไขมันช่องท้องสูง".
Definition vf_very_high :=
  "ไขมันในช่องท้อง: สูงมาก - คุณมีภาวะเสี่ยงอันตรายจากการมีไขมันช่องท้องมากผิดปกติ".

Definition muscle_low :=
  "มวลกล้ามเนื้อ: ต่ำ - คุณมีมวลกล้ามเนื้อน้อยเกินไป สร้างกล้ามเนื้อโดยเน้น เพิ่มโปรตีนคุณภาพ นอนหลับคุณภาพ ออกกำลังกายแบบบอดี้เวท หรือเวทเทรนนิ่ง".
Definition muscle_normal := "มวลกล้ามเนื้อ: ปกติ".
Definition muscle_high := "มวลกล้ามเนื้อ: สูง ร่างกายแข็งแรง".
Definition muscle_very_high :=
  "มวลกล้ามเนื้อ: สูงมาก - คุณมีมวลกล้ามเนื้อในระดับนักกีฬา ร่างกายแข็งแรง พยายามรักษาพฤติกรรมสุขภาพต่อไป".

End MsgBody.

(** Body-fat percent, lines 160-180: [gender == 'female'] selects the
    first ladder, every other gender value the second. *)
Definition fat_overview (gender : string) (fat : Q) : list Item :=
  if String.eqb gender "female" then
    if Qbetween 5 fat 19.9 then [create_item MsgBody.fat_low "success"]
    else if Qbetween 20 fat 29.9 then [create_item MsgBody.fat_normal "success"]
    else if Qbetween 30 fat 34.5 then [create_item MsgBody.fat_elevated "warning"]
    else if Qbetween 35 fat 50 then [create_item MsgBody.fat_high "danger"]
    else []
  else
    if Qbetween 5 fat 9.9 then [create_item MsgBody.fat_low "success"]
    else if Qbetween 10 fat 19.9 then [create_item MsgBody.fat_normal "success"]
    else if Qbetween 20 fat 24.9 then [create_item MsgBody.fat_elevated "warning"]
    else if Qbetween 25 fat 50 then [create_item MsgBody.fat_high "danger"]
    else [].

(** Visceral fat, lines 182-189. *)
Definition vf_overview (vf : Q) : list Item :=
  if Qbetween 1 vf 9 then [create_item MsgBody.vf_normal "success"]
  else if Qbetween 10 vf 14 then [create_item MsgBody.vf_high "warning"]
  else if Qbetween 15 vf 30 then [create_item MsgBody.vf_very_high "danger"]
  else [].

(** Muscle percent, lines 192-250.  The source writes the same four-rung
    ladder six times, once per sex and age band, with different literals:
    [muscle < c1], [c1 <= muscle <= c2], [c3 <= muscle <= c4],
    [muscle >= c5].  [muscle_ladder] is that ladder; [muscle_cuts] is the
    table of literals, in the order of the source. *)
Inductive MuscleTier : Type := MLow | MNormal | MHigh | MVeryHigh.

Definition muscle_ladder (c1 c2 c3 c4 c5 : Q) (muscle : Q) : option MuscleTier :=
  if Qltb muscle c1 then Some MLow
  else if Qbetween c1 muscle c2 then Some MNormal
  else if Qbetween c3 muscle c4 then Some MHigh
  else if Qgeb muscle c5 then Some MVeryHigh
  else None.

Definition muscle_classify (gender : string) (age : Z) (muscle : Q)
  : option MuscleTier :=
  if String.eqb gender "female" then
    if Zbetween 18 age 39 then muscle_ladder 24.3 30.3 30.4 35.3 35.4 muscle
    else if Zbetween 40 age 59 then muscle_ladder 24.1 30.1 30.2 35.1 35.2 muscle
    else if Zbetween 60 age 80 then muscle_ladder 23.9 29.9 30 34.9 35 muscle
    else None
  else
    if Zbetween 18 age 39 then muscle_ladder 33.3 39.3 39.4 44 44.1 muscle
    else if Zbetween 40 age 59 then muscle_ladder 33.1 39.1 39.2 43.8 43.9 muscle
    else if Zbetween 60 age 80 then muscle_ladder 32.9 38.9 39 43.6 43.7 muscle
    else None.

(** The item appended on each rung; only the top rung passes a third
    argument to [create_item]. *)
Definition muscle_item (t : MuscleTier) : Item :=
  match t with
  | MLow => create_item MsgBody.muscle_low "warning"
  | MNormal => create_item MsgBody.muscle_normal "success"
  | MHigh => create_item MsgBody.muscle_high "success"
  | MVeryHigh => create_item3 MsgBody.muscle_very_high "success" "success"
  end.

Definition muscle_overview (gender : string) (age : Z) (muscle : Q) : list Item :=
  match muscle_classify gender age muscle with
  | Some t => [muscle_item t]
  | None => []
  end.

(** The order of the tiers, low < normal < high < very high. *)
Definition tier_rank (t : MuscleTier) : nat :=
  match t with MLow => 0 | MNormal => 1 | MHigh => 2 | MVeryHigh => 3 end.

Module MsgLab.

Definition chol_normal := "ปริมาณไขมันคอเลสเตอรอลอยู่ในระดับปกติ".
Definition chol_high := "ปริมาณไขมันคอเลสเตอรอลอยู่ในระดับมากผิดปกติ".
Definition ldl_normal := "ไขมันไม่ดีอยู่ในระดับปกติ".
Definition ldl_high := "ปริมาณไขมันไม่ดีอยู่ในระดับมากผิดปกติ".
Definition hdl_normal := "ปริมาณไขมันดีอยู่ในระดับปกติ".
Definition hdl_low := "ปริมาณไขมันดีอยู่ในระดับต่ำกว่าปกติ ".
Definition fbs_normal := "ระดับน้ำตาลอยู่ในเกณฑ์ปกติ".
Definition fbs_pre :=
  "ระดับน้ำตาลในเลือดเสี่ยงเป็นโรคเบาหวานหรือมีภาวะก่อนเบาหวาน".
Definition fbs_diabetic := "ระดับน้ำตาลในเลือดอยู่ในเกณฑ์โรคเบาหวาน".
Definition tg_normal := "ระดับไตรกลีเซอไรด์อยู่ในเกณฑ์ปกติ".
Definition tg_borderline :=
  "ระดับไตรกลีเซอไรด์อยู่ในเกณฑ์สูงเล็กน้อย ลดอาหารที่มีน้ำตาลและไขมันทรานส์ กินอาหารคาร์บคุณภาพ งด/ลดอาหารแปรรูปขั้นสูง งดเครื่องดื่มแอลกอฮอล์ และทำ IF กินและอดอาหารเป็นช่วงๆ".
Definition tg_high :=
  "ระดับไตรกลีเซอไรด์อยู่ในเกณฑ์สูง ลดอาหารที่มีน้ำตาลและไขมันทรานส์ กินอาหารคาร์บคุณภาพ งด/ลดอาหารแปรรูปขั้นสูง งดเครื่องดื่มแอลกอฮอล์ และทำ IF กินและอดอาหารเป็นช่วงๆ ".
Definition tg_very_high :=
  "ระดับไตรกลีเซอไรด์อยู่ในเกณฑ์สูงมาก ซึ่งอาจเพิ่มความเสี่ยงต่อการเกิดตับอ่อนอักเสบ ควรรีบปรึกษาบุคลากรทางการแพทย์ทันที".

End MsgLab.

(** The laboratory values, lines 252-301.  Each ladder runs on the value
    once the availability guard has let it through. *)
Definition chol_ladder (chol : Q) : list Item :=
  if Qltb chol 200 then [create_item MsgLab.chol_normal "success"]
  else [create_item MsgLab.chol_high "warning"].

Definition ldl_ladder (ldl : Q) : list Item :=
  if Qltb ldl 130 then [create_item MsgLab.ldl_normal "success"]
  else [create_item MsgLab.ldl_high "warning"].

Definition hdl_ladder (gender : string) (hdl : Q) : list Item :=
  if String.eqb gender "male" then
    if Qgtb hdl 40 then [create_item MsgLab.hdl_normal "success"]
    else [create_item MsgLab.hdl_low "warning"]
  else
    if Qgtb hdl 50 then [create_item MsgLab.hdl_normal "success"]
    else [create_item MsgLab.hdl_low "warning"].

Definition fbs_ladder (fbs : Q) : list Item :=
  if Qltb fbs 100 then [create_item MsgLab.fbs_normal "success"]
  else if Qbetween 100 fbs 125 then [create_item MsgLab.fbs_pre "warning"]
  else [create_item MsgLab.fbs_diabetic "danger"].

(** Triglycerides, lines 293-301; the last branch is a bare [else]. *)
Definition tg_ladder (tg : Q) : list Item :=
  if Qltb tg 150 then [create_item MsgLab.tg_normal "success"]
  else if Qbetween 150 tg 199 then [create_item MsgLab.tg_borderline "warning"]
  else if Qbetween 200 tg 499 then [create_item MsgLab.tg_high "warning"]
  else [create_item MsgLab.tg_very_high "danger"].

Definition tg_overview (triglycerides : option Q) : list Item :=
  if_available triglycerides tg_ladder.

(** [generate_health_overview]: the sections append to one list, in this
    order.  The four status arguments of the source are never read. *)
Definition generate_health_overview {St : Type} (record : HealthRecord)
    (profile : Profile) (bmi_status fat_status visceral_status muscle_status : St)
  : list Item :=
  bp_overview (blood_pressure_systolic record) (blood_pressure_diastolic record)
  ++ waist_overview (waist record) (height record)
  ++ bmi_overview (bmi record)
  ++ fat_overview (gender profile) (fat_percent record)
  ++ vf_overview (visceral_fat record)
  ++ muscle_overview (gender profile) (age_years profile) (muscle_percent record)
  ++ if_available (cholesterol record) chol_ladder
  ++ if_available (ldl record) ldl_ladder
  ++ if_available (hdl record) (hdl_ladder (gender profile))
  ++ if_available (fbs record) fbs_ladder
  ++ tg_overview (triglycerides record).

(** ** Helpers of the history view *)

(** [get_fat_normal_range], lines 529-534. *)
Definition get_fat_normal_range (profile : Profile) : Q * Q :=
  if String.eqb (gender profile) "female" then (20, 29.9) else (10, 19.9).

(** [get_muscle_normal_range], lines 537-555: the last branch of each sex
    is a bare [else] (commented [60-80] in the source). *)
Definition get_muscle_normal_range (profile : Profile) : Q * Q :=
  let age := age_years profile in
  if String.eqb (gender profile) "female" then
    if Zbetween 18 age 39 then (24.3, 30.3)
    else if Zbetween 40 age 59 then (24.1, 30.1)
    else (23.9, 29.9)
  else
    if Zbetween 18 age 39 then (33.3, 39.3)
    else if Zbetween 40 age 59 then (33.1, 39.1)
    else (32.9, 38.9).

(** [get_triglycerides_status], lines 557-568: half-open bands, and an
    explicit [is None] test.  The result is the pair (label, colour). *)
Definition get_triglycerides_status (value : option Q)
  : option string * option string :=
  match value with
  | None => (None, None)
  | Some v =>
      if Qltb v 150 then (Some "ปกติ", Some "#28a745")
      else if Qleb 150 v && Qltb v 200 then (Some "สูงกว่าปกติ", Some "#ffc107")
      else if Qleb 200 v && Qltb v 500 then (Some "สูง", Some "#fd7e14")
      else (Some "สูงมาก", Some "#dc3545")
  end.

(** ** Dictionaries in insertion order *)

Module Dict.

Definition t (V : Type) : Type := list (string * V).

(** [d[k] = v]: replace in place, or append a new key at the end. *)
Fixpoint set {V : Type} (k : string) (v : V) (d : t V) : t V :=
  match d with
  | [] => [(k, v)]
  | (k', v') :: rest =>
      if String.eqb k k' then (k, v) :: rest else (k', v') :: set k v rest
  end.

(** [d.get(k)]; [None] stands for a missing key. *)
Fixpoint get {V : Type} (k : string) (d : t V) : option V :=
  match d with
  | [] => None
  | (k', v') :: rest => if String.eqb k k' then Some v' else get k rest
  end.

(** [k in d] *)
Definition mem {V : Type} (k : string) (d : t V) : bool :=
  match get k d with Some _ => true | None => false end.

Definition keys {V : Type} (d : t V) : list string := map fst d.

End Dict.

(** ** The comparator *)

(** [get_comparison_text], lines 736-743.  The rendering of a number with
    one decimal ([:.1f]) is a parameter [fmt1]. *)
Definition get_comparison_text (fmt1 : Q -> string) (diff : Q) : string :=
  if Qgtb diff 0 then "เพิ่มขึ้น " ++ fmt1 (Qabs diff)
  else if Qltb diff 0 then "ลดลง " ++ fmt1 (Qabs diff)
  else "เท่าเดิม".

(** [a and b] on two nullable decimals, with the values when both are
    true. *)
Definition both_available (a b : option Q) : option (Q * Q) :=
  match a, b with
  | Some x, Some y => if truthy a && truthy b then Some (x, y) else None
  | _, _ => None
  end.

Section Comparator.

(** The status methods of the [HealthRecord] model ([get_bmi_status] and
    the like) are defined in [models.py], outside the files at hand.  The
    comparator reads two keys of what they return, [color] and
    [normal_range]; they are taken as parameters.  The methods of the
    optional metrics may return a false value, which the source replaces
    by the colour [#6c757d]. *)
Variable NormalRange : Type.
Variable show_range : NormalRange -> string.
Variable fmt1 : Q -> string.

Record Status : Type := mkStatus {
  status_color : string;
  status_normal_range : NormalRange
}.

Record RecordMethods : Type := mkMethods {
  get_bmi_status : HealthRecord -> Status;
  get_fat_percent_status : HealthRecord -> Status;
  get_visceral_fat_status : HealthRecord -> Status;
  get_muscle_percent_status : HealthRecord -> Status;
  get_blood_pressure_status : HealthRecord -> Status;
  get_waist_status : HealthRecord -> Status;
  get_cholesterol_status : HealthRecord -> option Status;
  get_ldl_status : HealthRecord -> option Status;
  get_hdl_status : HealthRecord -> option Status;
  get_fbs_status : HealthRecord -> option Status;
  record_get_triglycerides_status : HealthRecord -> option Status
}.

Variable methods : RecordMethods.

(** One value of the comparison dictionary.  The entries of the optional
    metrics have no [normal_range] key. *)
Record Entry : Type := mkEntry {
  start_value : Q;
  end_value : Q;
  diff : Q;
  entry_text : string;
  entry_color : string;
  normal_range : option NormalRange
}.

(** The entry of a metric that every record has. *)
Definition core_entry (first_v last_v : Q) (status : Status) : Entry :=
  let d := last_v - first_v in
  {| start_value := first_v; end_value := last_v; diff := d;
     entry_text := get_comparison_text fmt1 d;
     entry_color := status_color status;
     normal_range := Some (status_normal_range status) |}.

(** The two pressure entries subtract integers. *)
Definition pressure_entry (first_v last_v : Z) (status : Status) : Entry :=
  let d := inject_Z (last_v - first_v) in
  {| start_value := inject_Z first_v; end_value := inject_Z last_v; diff := d;
     entry_text := get_comparison_text fmt1 d;
     entry_color := status_color status;
     normal_range := Some (status_normal_range status) |}.

Definition lab_entry (first_v last_v : Q) (status : option Status) : Entry :=
  let d := last_v - first_v in
  {| start_value := first_v; end_value := last_v; diff := d;
     entry_text := get_comparison_text fmt1 d;
     entry_color :=
       match status with Some s => status_color s | None => "#6c757d" end;
     normal_range := None |}.

(** [if first.f and last.f: comparison[key] = ...] *)
Definition set_if_both (key : string) (first_v last_v : option Q)
    (status : option Status) (comparison : Dict.t Entry) : Dict.t Entry :=
  match both_available first_v last_v with
  | Some (f, l) => Dict.set key (lab_entry f l status) comparison
  | None => comparison
  end.

(** [generate_comparison_table], lines 571-733.  The argument [profile]
    is not read. *)
Definition generate_comparison_table (first_record last_record : HealthRecord)
    (profile : Profile) : Dict.t Entry :=
  let comparison : Dict.t Entry := [] in
  let comparison :=
    Dict.set "bmi"
      (core_entry (bmi first_record) (bmi last_record)
         (get_bmi_status methods last_record)) comparison in
  let comparison :=
    Dict.set "fat_percent"
      (core_entry (fat_percent first_record) (fat_percent last_record)
         (get_fat_percent_status methods last_record)) comparison in
  let comparison :=
    Dict.set "visceral_fat"
      (core_entry (visceral_fat first_record) (visceral_fat last_record)
         (get_visceral_fat_status methods last_record)) comparison in
  let comparison :=
    Dict.set "muscle_percent"
      (core_entry (muscle_percent first_record) (muscle_percent last_record)
         (get_muscle_percent_status methods last_record)) comparison in
  let comparison :=
    Dict.set "blood_pressure_systolic"
      (pressure_entry (blood_pressure_systolic first_record)
         (blood_pressure_systolic last_record)
         (get_blood_pressure_status methods last_record)) comparison in
  let comparison :=
    Dict.set "blood_pressure_diastolic"
      (pressure_entry (blood_pressure_diastolic first_record)
         (blood_pressure_diastolic last_record)
         (get_blood_pressure_status methods last_record)) comparison in
  let comparison :=
    Dict.set "waist"
      (core_entry (waist first_record) (waist last_record)
         (get_waist_status methods last_record)) comparison in
  let comparison :=
    set_if_both "cholesterol" (cholesterol first_record)
      (cholesterol last_record) (get_cholesterol_status methods last_record)
      comparison in
  let comparison :=
    set_if_both "ldl" (ldl first_record) (ldl last_record)
      (get_ldl_status methods last_record) comparison in
  let comparison :=
    set_if_both "hdl" (hdl first_record) (hdl last_record)
      (get_hdl_status methods last_record) comparison in
  let comparison :=
    set_if_both "fbs" (fbs first_record) (fbs last_record)
      (get_fbs_status methods last_record) comparison in
  let comparison :=
    set_if_both "triglycerides" (triglycerides first_record)
      (triglycerides last_record)
      (record_get_triglycerides_status methods last_record) comparison in
  comparison.

(** A subscript [comparison[key]['text']] or
    [comparison[key]['normal_range']] raises [KeyError] on a missing
    key; [None] stands for the exception. *)
Definition core_sentence (title key : string) (comparison : Dict.t Entry)
  : option string :=
  match Dict.get key comparison with
  | Some e =>
      match normal_range e with
      | Some r => Some (title ++ " " ++ entry_text e ++ " ค่าปกติ " ++ show_range r)
      | None => None
      end
  | None => None
  end.

(** [f"... {comparison[key]['text']}" if key in comparison else ''] *)
Definition lab_sentence (title key : string) (comparison : Dict.t Entry)
  : string :=
  match Dict.get key comparison with
  | Some e => title ++ " " ++ entry_text e
  | None => ""
  end.

Definition bind {A B : Type} (o : option A) (k : A -> option B) : option B :=
  match o with Some a => k a | None => None end.

(** [generate_summary_info], lines 746-766: one dictionary literal, the
    keys in the order of the source. *)
Definition generate_summary_info (first_record last_record : HealthRecord)
    (profile : Profile) : option (Dict.t string) :=
  let comparison := generate_comparison_table first_record last_record profile in
  bind (core_sentence "BMI" "bmi" comparison) (fun s_bmi =>
  bind (core_sentence "รอบเอว" "waist" comparison) (fun s_waist =>
  bind (core_sentence "ความดันโลหิตตัวบน" "blood_pressure_systolic" comparison)
    (fun s_sys =>
  bind (core_sentence "ความดันโลหิตตัวล่าง" "blood_pressure_diastolic" comparison)
    (fun s_dia =>
  bind (core_sentence "เปอร์เซ็นต์ไขมัน" "fat_percent" comparison) (fun s_fat =>
  bind (core_sentence "เปอร์เซ็นต์ไขมันในช่องท้อง" "visceral_fat" comparison)
    (fun s_vf =>
  bind (core_sentence "เปอร์เซ็นต์มวลกล้ามเนื้อ" "muscle_percent" comparison)
    (fun s_muscle =>
  Some
    [("bmi", s_bmi);
     ("waist", s_waist);
     ("blood_pressure_systolic", s_sys);
     ("blood_pressure_diastolic", s_dia);
     ("fat_percent", s_fat);
     ("visceral_fat", s_vf);
     ("muscle_percent", s_muscle);
     ("cholesterol", lab_sentence "คอเลสเตอรอล" "cholesterol" comparison);
     ("ldl", lab_sentence "LDL" "ldl" comparison);
     ("hdl", lab_sentence "HDL" "hdl" comparison);
     ("fbs", lab_sentence "น้ำตาลในเลือดขณะอดอาหาร" "fbs" comparison);
     ("triglycerides", lab_sentence "ไตรกลีเซอไรด์" "triglycerides" comparison)]
  ))))))).

End Comparator.

Arguments status_color {NormalRange} _.
Arguments status_normal_range {NormalRange} _.
Arguments diff {NormalRange} _.
Arguments entry_text {NormalRange} _.
Arguments entry_color {NormalRange} _.
Arguments normal_range {NormalRange} _.
Arguments start_value {NormalRange} _.
Arguments end_value {NormalRange} _.

(** The optional laboratory metrics, with their dictionary key and their
    record field. *)
Inductive LabMetric : Type :=
  Cholesterol | Ldl | Hdl | Fbs | Triglycerides.

Definition lab_key (m : LabMetric) : string :=
  match m with
  | Cholesterol => "cholesterol"
  | Ldl => "ldl"
  | Hdl => "hdl"
  | Fbs => "fbs"
  | Triglycerides => "triglycerides"
  end.

Definition lab_field (m : LabMetric) (r : HealthRecord) : option Q :=
  match m with
  | Cholesterol => cholesterol r
  | Ldl => ldl r
  | Hdl => hdl r
  | Fbs => fbs r
  | Triglycerides => triglycerides r
  end.

(** ** Sample data *)

(** The scenario of the specification: a male profile aged 30 and two
    records without laboratory values. *)
Definition profile_m30 : Profile := {| gender := "male"; age_years := 30 |}.

Definition sample_a : HealthRecord :=
  {| blood_pressure_systolic := 125; blood_pressure_diastolic := 82;
     height := 170; waist := 80; bmi := 24; fat_percent := 22;
     visceral_fat := 12; muscle_percent := 35;
     cholesterol := None; ldl := None; hdl := None; fbs := None;
     triglycerides := None |}.

Definition sample_b : HealthRecord :=
  {| blood_pressure_systolic := 118; blood_pressure_diastolic := 78;
     height := 170; waist := 80; bmi := 21; fat_percent := 18;
     visceral_fat := 12; muscle_percent := 35;
     cholesterol := None; ldl := None; hdl := None; fbs := None;
     triglycerides := None |}.

(** The same records with a cholesterol value: a stored zero on the
    earlier one, a positive value on the later one. *)
Definition with_cholesterol (c : option Q) (r : HealthRecord) : HealthRecord :=
  {| blood_pressure_systolic := blood_pressure_systolic r;
     blood_pressure_diastolic := blood_pressure_diastolic r;
     height := height r; waist := waist r; bmi := bmi r;
     fat_percent := fat_percent r; visceral_fat := visceral_fat r;
     muscle_percent := muscle_percent r;
     cholesterol := c; ldl := ldl r; hdl := hdl r; fbs := fbs r;
     triglycerides := triglycerides r |}.

Definition sample_a_zero : HealthRecord := with_cholesterol (Some 0) sample_a.
Definition sample_a_chol : HealthRecord := with_cholesterol (Some 210) sample_a.
Definition sample_b_chol : HealthRecord := with_cholesterol (Some 180) sample_b.

(** Stand-ins for the parameters of the comparator, to run it. *)
Definition demo_status : Status string :=
  {| status_color := "#28a745"; status_normal_range := "-" |}.

Definition demo_methods : RecordMethods string :=
  {| get_bmi_status := fun _ => demo_status;
     get_fat_percent_status := fun _ => demo_status;
     get_visceral_fat_status := fun _ => demo_status;
     get_muscle_percent_status := fun _ => demo_status;
     get_blood_pressure_status := fun _ => demo_status;
     get_waist_status := fun _ => demo_status;
     get_cholesterol_status := fun _ => Some demo_status;
     get_ldl_status := fun _ => None;
     get_hdl_status := fun _ => None;
     get_fbs_status := fun _ => None;
     record_get_triglycerides_status := fun _ => None |}.

Definition demo_show (r : string) : string := r.
Definition demo_fmt1 (q : Q) : string := "x.x".

Definition demo_table (first_record last_record : HealthRecord)
  : Dict.t (Entry string) :=
  generate_comparison_table string demo_fmt1 demo_methods
    first_record last_record profile_m30.

Definition demo_summary (first_record last_record : HealthRecord)
  : option (Dict.t string) :=
  generate_summary_info string demo_show demo_fmt1 demo_methods
    first_record last_record profile_m30.

Definition profile_f85 : Profile := {| gender := "female"; age_years := 85 |}.

(** ** Vocabulary of the statements *)

(** A nullable value that passes the availability test of the source:
    it is present and it is not zero. *)
Definition measured (o : option Q) : Prop :=
  exists q, o = Some q /\ ~ q == 0.

(** The value that a record holds for a key of the comparison table, as a
    number; pressures are integers. *)
Definition metric_value (key : string) (r : HealthRecord) : option Q :=
  if String.eqb key "bmi" then Some (bmi r)
  else if String.eqb key "fat_percent" then Some (fat_percent r)
  else if String.eqb key "visceral_fat" then Some (visceral_fat r)
  else if String.eqb key "muscle_percent" then Some (muscle_percent r)
  else if String.eqb key "blood_pressure_systolic" then
    Some (inject_Z (blood_pressure_systolic r))
  else if String.eqb key "blood_pressure_diastolic" then
    Some (inject_Z (blood_pressure_diastolic r))
  else if String.eqb key "waist" then Some (waist r)
  else if String.eqb key "cholesterol" then cholesterol r
  else if String.eqb key "ldl" then ldl r
  else if String.eqb key "hdl" then hdl r
  else if String.eqb key "fbs" then fbs r
  else if String.eqb key "triglycerides" then triglycerides r
  else None.

(** The keys of the comparison table that every record has, the optional
    metrics, and the keys of the summary, each in the order of the source. *)
Definition core_keys : list string :=
  ["bmi"; "fat_percent"; "visceral_fat"; "muscle_percent";
   "blood_pressure_systolic"; "blood_pressure_diastolic"; "waist"].

Definition lab_metrics : list LabMetric :=
  [Cholesterol; Ldl; Hdl; Fbs; Triglycerides].

Definition summary_keys : list string :=
  ["bmi"; "waist"; "blood_pressure_systolic"; "blood_pressure_diastolic";
   "fat_percent"; "visceral_fat"; "muscle_percent";
   "cholesterol"; "ldl"; "hdl"; "fbs"; "triglycerides"].

(** ** The data of a metric graph *)

(** One value of the dictionary [metric_config] of
    [generate_metric_graph], lines 423-496. *)
Record MetricConfig : Type := mkConfig {
  config_values : list Q;
  config_title : string;
  config_ylabel : string;
  config_normal_range : Q * Q
}.

(** [[float(r.f) for r in records]] *)
Definition all_values (f : HealthRecord -> Q) (records : list HealthRecord)
  : list Q :=
  map f records.

(** [[float(r.f) for r in records if r.f]] *)
Definition available_values (f : HealthRecord -> option Q)
    (records : list HealthRecord) : list Q :=
  flat_map (fun r => if_available (f r) (fun q => [q])) records.

Definition metric_config (records : list HealthRecord) (profile : Profile)
  : Dict.t MetricConfig :=
  [("bmi",
    {| config_values := all_values bmi records;
       config_title := "BMI"; config_ylabel := "BMI";
       config_normal_range := (18.5, 22.9) |});
   ("fat_percent",
    {| config_values := all_values fat_percent records;
       config_title := "Fat Percent"; config_ylabel := "Fat Percent (%)";
       config_normal_range := get_fat_normal_range profile |});
   ("visceral_fat",
    {| config_values := all_values visceral_fat records;
       config_title := "Visceral Fat"; config_ylabel := "Visceral Fat";
       config_normal_range := (1, 9) |});
   ("muscle_percent",
    {| config_values := all_values muscle_percent records;
       config_title := "Muscle Percent"; config_ylabel := "Muscle Percent (%)";
       config_normal_range := get_muscle_normal_range profile |});
   ("blood_pressure_systolic",
    {| config_values :=
         all_values (fun r => inject_Z (blood_pressure_systolic r)) records;
       config_title := "Blood Pressure Systolic";
       config_ylabel := "Systolic (mmHg)";
       config_normal_range := (90, 120) |});
   ("blood_pressure_diastolic",
    {| config_values :=
         all_values (fun r => inject_Z (blood_pressure_diastolic r)) records;
       config_title := "Blood Pressure Diastolic";
       config_ylabel := "Diastolic (mmHg)";
       config_normal_range := (60, 80) |});
   ("waist",
    {| config_values := all_values waist records;
       config_title := "Waist Circumference"; config_ylabel := "Waist (cm)";
       config_normal_range :=
         (60, if String.eqb (gender profile) "male" then 90 else 80) |});
   ("cholesterol",
    {| config_values := available_values cholesterol records;
       config_title := "Cholesterol"; config_ylabel := "Cholesterol (mg/dL)";
       config_normal_range := (0, 200) |});
   ("ldl",
    {| config_values := available_values ldl records;
       config_title := "LDL"; config_ylabel := "LDL (mg/dL)";
       config_normal_range := (0, 100) |});
   ("hdl",
    {| config_values := available_values hdl records;
       config_title := "HDL"; config_ylabel := "HDL (mg/dL)";
       config_normal_range := (40, 100) |});
   ("fbs",
    {| config_values := available_values fbs records;
       config_title := "FBS (Fasting Blood Sugar)";
       config_ylabel := "FBS (mg/dL)";
       config_normal_range := (70, 100) |});
   ("triglycerides",
    {| config_values := available_values triglycerides records;
       config_title := "Triglycerides"; config_ylabel := "Triglycerides (mg/dL)";
       config_normal_range := (0, 150) |})].

(** What [generate_metric_graph] hands to the plotting library: the dates
    of the x axis and the configuration chosen by
    [metric_config.get(metric_name, metric_config['bmi'])].  The drawing
    and the encoding of the picture are not modelled.  A record comes with
    its [recorded_at] stamp, a day number. *)
Record Plot : Type := mkPlot {
  plot_dates : list Z;
  plot_config : MetricConfig
}.

(** The function returns [None] on an empty query set. *)
Inductive GraphResult : Type :=
| NoGraph
| Graph (p : Plot).

(** An exception of the program or of a library that it calls. *)
Inductive Exception : Type :=
| KeyError
| ValueError
| AttributeError.

(** The outcome of a call that may raise. *)
Inductive Result (A : Type) : Type :=
| Returns (value : A)
| Raises (exn : Exception).

Arguments Returns {A} _.
Arguments Raises {A} _.

(** [generate_metric_graph], lines 412-526.  The subscript
    [metric_config['bmi']] raises [KeyError] on a missing key, and
    [plt.plot(dates, values)], line 503, raises [ValueError] when the two
    series differ in length. *)
Definition generate_metric_graph (records : list (Z * HealthRecord))
    (metric_name : string) (profile : Profile) : Result GraphResult :=
  match records with
  | [] => Returns NoGraph
  | _ :: _ =>
      let dates := map fst records in
      let config_table := metric_config (map snd records) profile in
      match Dict.get "bmi" config_table with
      | None => Raises KeyError
      | Some default =>
          let config :=
            match Dict.get metric_name config_table with
            | Some c => c
            | None => default
            end in
          let values := config_values config in
          if Nat.eqb (length dates) (length values) then
            Returns (Graph {| plot_dates := dates; plot_config := config |})
          else Raises ValueError
      end
  end.

(** ** The views that call the core *)

(** Truthiness of a nullable text: [None] and the empty string are false. *)
Definition text_truthy (o : option string) : bool :=
  match o with
  | Some s => negb (String.eqb s "")
  | None => false
  end.

(** The account side of a profile, as [dashboard_view] reads it:
    [requires_mfa()], [mfa_enabled], the two names and the birth date,
    beside the part that the classifier reads. *)
Record Account : Type := mkAccount {
  account_profile : Profile;
  requires_mfa : bool;
  mfa_enabled : bool;
  firstname : option string;
  lastname : option string;
  birthdate : option Z
}.

(** A view answers with a redirect, after queueing one message, or with a
    rendered template and its context. *)
Inductive Response (C : Type) : Type :=
| Redirect (level message target : string)
| Render (template : string) (context : C).

Arguments Redirect {C} _ _ _.
Arguments Render {C} _ _.

Definition profile_complete (acct : Account) : bool :=
  text_truthy (firstname acct) && text_truthy (lastname acct)
  && match birthdate acct with Some _ => true | None => false end.

(** [QuerySet.first()] and [QuerySet.last()] on the rows of a query. *)
Definition queryset_first {A : Type} (rows : list A) : option A := hd_error rows.
Definition queryset_last {A : Type} (rows : list A) : option A :=
  hd_error (rev rows).

(** The two date filters of [history_view], lines 373-379: an empty
    parameter leaves the rows as they are. *)
Definition filter_dates (date_start date_end : option Z)
    (records : list (Z * HealthRecord)) : list (Z * HealthRecord) :=
  let filtered_records := records in
  let filtered_records :=
    match date_start with
    | Some d => filter (fun r => (d <=? fst r)%Z) filtered_records
    | None => filtered_records
    end in
  let filtered_records :=
    match date_end with
    | Some d => filter (fun r => (fst r <=? d)%Z) filtered_records
    | None => filtered_records
    end in
  filtered_records.

Section Views.

Variable NormalRange : Type.
Variable show_range : NormalRange -> string.
Variable fmt1 : Q -> string.
Variable methods : RecordMethods NormalRange.

(** The context of the dashboard: the record, the statuses of the record
    methods and the overview. *)
Record DashboardContext : Type := mkDashboard {
  dash_profile : Account;
  dash_latest_record : HealthRecord;
  dash_core_status : list (string * Status NormalRange);
  dash_lab_status : list (string * option (Status NormalRange));
  dash_health_overview : list Item
}.

(** [dashboard_view], lines 33-88.  [latest_record] is the answer of
    [HealthRecord.objects.filter(user=user).first()]. *)
Definition dashboard_view (acct : Account) (latest_record : option HealthRecord)
  : Response DashboardContext :=
  if requires_mfa acct && negb (mfa_enabled acct) then
    Redirect "error" "⚠️ คุณต้องตั้งค่า MFA ก่อนใช้งานระบบ" "accounts:mfa_setup"
  else if negb (text_truthy (firstname acct))
          || negb (text_truthy (lastname acct))
          || match birthdate acct with Some _ => false | None => true end then
    Redirect "warning" "กรุณาเพิ่มข้อมูลโปรไฟล์ให้ครบถ้วนก่อนใช้งาน"
      "accounts:profile"
  else
    match latest_record with
    | None =>
        Redirect "info" "กรุณาเพิ่มข้อมูลสุขภาพของคุณ" "health_app:add_metric"
    | Some record =>
        let bmi_status := get_bmi_status _ methods record in
        let fat_status := get_fat_percent_status _ methods record in
        let visceral_status := get_visceral_fat_status _ methods record in
        let muscle_status := get_muscle_percent_status _ methods record in
        let health_overview :=
          generate_health_overview record (account_profile acct)
            bmi_status fat_status visceral_status muscle_status in
        Render "health_app/dashboard_n.html"
          {| dash_profile := acct;
             dash_latest_record := record;
             dash_core_status :=
               [("bmi_status", bmi_status);
                ("fat_status", fat_status);
                ("visceral_status", visceral_status);
                ("muscle_status", muscle_status);
                ("blood_pressure_status",
                  get_blood_pressure_status _ methods record);
                ("waist_status", get_waist_status _ methods record)];
             dash_lab_status :=
               [("cholesterol_status", get_cholesterol_status _ methods record);
                ("ldl_status", get_ldl_status _ methods record);
                ("hdl_status", get_hdl_status _ methods record);
                ("fbs_status", get_fbs_status _ methods record);
                ("triglycerides_status",
                  record_get_triglycerides_status _ methods record)];
             dash_health_overview := health_overview |}
    end.

(** The reading and the printing of a date, [strptime(text, '%Y-%m-%d')]
    and [strftime('%Y-%m-%d')], are parameters; [None] stands for the
    [ValueError] of a text that is no date. *)
Variable strptime_date : string -> option Z.
Variable strftime_date : Z -> string.

(** The context of the history page. *)
Record HistoryContext : Type := mkHistory {
  hist_records : list (Z * HealthRecord);
  hist_graph : GraphResult;
  hist_metric_filter : string;
  hist_date_start : string;
  hist_date_end : string;
  hist_comparison_data : option (Dict.t (Entry NormalRange));
  hist_summary_info : option (Dict.t string)
}.

(** [if text: datetime.strptime(text, '%Y-%m-%d').date()], lines 374-379:
    an empty parameter sets no bound. *)
Definition parse_date_filter (text : string) : Result (option Z) :=
  if String.eqb text "" then Returns None
  else
    match strptime_date text with
    | Some d => Returns (Some d)
    | None => Raises ValueError
    end.

(** [history_view], lines 356-409.  [records] are the rows of the user in
    the order of [recorded_at]; [metric] is the GET parameter, absent or
    given; the two date parameters are texts, empty when absent. *)
Definition history_view (records : list (Z * HealthRecord))
    (metric : option string) (date_start_str date_end_str : string)
    (profile : Profile) : Result (Response HistoryContext) :=
  match records with
  | [] => Returns (Redirect "info" "ไม่มีข้อมูลประวัติ" "health_app:add_metric")
  | _ :: _ =>
      let metric_filter := match metric with Some m => m | None => "bmi" end in
      match parse_date_filter date_start_str with
      | Raises e => Raises e
      | Returns date_start =>
      match parse_date_filter date_end_str with
      | Raises e => Raises e
      | Returns date_end =>
      let filtered_records := filter_dates date_start date_end records in
      let first_record := queryset_first records in
      let last_record := queryset_last records in
      match generate_metric_graph filtered_records metric_filter profile with
      | Raises e => Raises e
      | Returns graph =>
          let build comparison_data summary_info :=
            Returns (Render "health_app/history.html"
              {| hist_records := records;
                 hist_graph := graph;
                 hist_metric_filter := metric_filter;
                 hist_date_start :=
                   if String.eqb date_start_str "" then
                     match first_record with
                     | Some r => strftime_date (fst r)
                     | None => ""
                     end
                   else date_start_str;
                 hist_date_end :=
                   if String.eqb date_end_str "" then
                     match last_record with
                     | Some r => strftime_date (fst r)
                     | None => ""
                     end
                   else date_end_str;
                 hist_comparison_data := comparison_data;
                 hist_summary_info := summary_info |}) in
          if (2 <=? length filtered_records)%nat then
            match queryset_first filtered_records,
                  queryset_last filtered_records with
            | Some first_filtered, Some last_filtered =>
                let comparison_data :=
                  generate_comparison_table NormalRange fmt1 methods
                    (snd first_filtered) (snd last_filtered) profile in
                match generate_summary_info NormalRange show_range fmt1 methods
                        (snd first_filtered) (snd last_filtered) profile with
                | Some summary_info =>
                    build (Some comparison_data) (Some summary_info)
                | None => Raises KeyError
                end
            | _, _ => Raises AttributeError
            end
          else build None None
      end
      end
      end
  end.

End Views.

(** ** The views that write *)

(** A stored [HealthRecord] row: its primary key, its owner, its
    [recorded_at] stamp and the measurements. *)
Record Row : Type := mkRow {
  row_id : Z;
  row_user : Z;
  row_recorded_at : Z;
  row_record : HealthRecord
}.

(** A [UserActivity] row.  The address and the agent stay unset when the
    logger gets no request. *)
Record UserActivity : Type := mkActivity {
  activity_user : Z;
  activity_action : string;
  activity_description : string;
  activity_ip_address : option string;
  activity_user_agent : option string
}.

Record Database : Type := mkDatabase {
  health_records : list Row;
  user_activities : list UserActivity
}.

(** What a view reads of a request: the user and the account, the method,
    two entries of [META], and the outcome of [HealthRecordForm]
    validation on the posted data, [None] when [is_valid()] is false. *)
Record Request : Type := mkRequest {
  request_user : Z;
  request_account : Account;
  request_method : string;
  meta_remote_addr : option string;
  meta_user_agent : option string;
  posted_form : option (Z * HealthRecord)
}.

(** [META.get(key, '')] *)
Definition meta_get (o : option string) : string :=
  match o with Some s => s | None => "" end.

(** [log_health_activity], lines 19-29. *)
Definition log_health_activity (user : Z) (action description : string)
    (request : option Request) (db : Database) : Database :=
  let activity :=
    match request with
    | Some r =>
        {| activity_user := user; activity_action := action;
           activity_description := description;
           activity_ip_address := Some (meta_get (meta_remote_addr r));
           activity_user_agent := Some (meta_get (meta_user_agent r)) |}
    | None =>
        {| activity_user := user; activity_action := action;
           activity_description := description;
           activity_ip_address := None; activity_user_agent := None |}
    end in
  {| health_records := health_records db;
     user_activities := user_activities db ++ [activity] |}.

(** The form shown by a rendered page. *)
Inductive FormState : Type :=
| EmptyForm
| InstanceForm (row : Row)
| InvalidForm.

(** The answer of a view that may raise [Http404]. *)
Inductive Outcome (C : Type) : Type :=
| Http404
| Answer (response : Response C).

Arguments Http404 {C}.
Arguments Answer {C} _.

Section WritingViews.

(** The rendering of a stamp in the log line. *)
Variable show_stamp : Z -> string.

(** [add_metric_view], lines 308-334.  [new_id] is the key that the
    database gives to the new row. *)
Definition add_metric_view (request : Request) (new_id : Z) (db : Database)
  : Database * Response (FormState * Account) :=
  let profile := request_account request in
  if negb (text_truthy (firstname profile))
     || negb (text_truthy (lastname profile))
     || match birthdate profile with Some _ => false | None => true end then
    (db, Redirect "warning"
           "กรุณาเพิ่มข้อมูลโปรไฟล์ให้ครบถ้วนก่อนเพิ่มข้อมูลสุขภาพ"
           "accounts:profile")
  else if String.eqb (request_method request) "POST" then
    match posted_form request with
    | Some (stamp, fields) =>
        let record :=
          {| row_id := new_id; row_user := request_user request;
             row_recorded_at := stamp; row_record := fields |} in
        let db :=
          {| health_records := health_records db ++ [record];
             user_activities := user_activities db |} in
        let db :=
          log_health_activity (request_user request) "health_record_add"
            ("Added health record for " ++ show_stamp (row_recorded_at record))
            (Some request) db in
        (db, Redirect "success" "เพิ่มข้อมูลสุขภาพสำเร็จ!" "health_app:dashboard")
    | None => (db, Render "health_app/add_metric.html" (InvalidForm, profile))
    end
  else (db, Render "health_app/add_metric.html" (EmptyForm, profile)).

(** [get_object_or_404(HealthRecord, id=record_id, user=request.user)] *)
Definition get_object_or_404 (record_id user : Z) (rows : list Row)
  : option Row :=
  find (fun row => (row_id row =? record_id)%Z && (row_user row =? user)%Z) rows.

(** [form.save()] on a bound instance: the row with the key of the
    instance takes the posted fields. *)
Definition save_instance (instance : Row) (rows : list Row) : list Row :=
  map (fun row => if (row_id row =? row_id instance)%Z then instance else row)
    rows.

(** [update_record_view], lines 338-352.  Validation writes the posted
    fields into the instance, so the log line shows the new stamp.  The
    context key [record] is the instance that the form holds. *)
Definition update_record_view (request : Request) (record_id : Z)
    (db : Database) : Database * Outcome FormState :=
  match get_object_or_404 record_id (request_user request) (health_records db)
  with
  | None => (db, Http404)
  | Some record =>
      if String.eqb (request_method request) "POST" then
        match posted_form request with
        | Some (stamp, fields) =>
            let record :=
              {| row_id := row_id record; row_user := row_user record;
                 row_recorded_at := stamp; row_record := fields |} in
            let db :=
              {| health_records := save_instance record (health_records db);
                 user_activities := user_activities db |} in
            let db :=
              log_health_activity (request_user request) "health_record_update"
                ("Updated health record for "
                 ++ show_stamp (row_recorded_at record))
                (Some request) db in
            (db, Answer (Redirect "success" "อัปเดตข้อมูลสำเร็จ!"
                           "health_app:history"))
        | None =>
            (db, Answer (Render "health_app/update_record.html" InvalidForm))
        end
      else
        (db, Answer (Render "health_app/update_record.html"
                       (InstanceForm record)))
  end.

End WritingViews.

(** ** More sample data *)

Definition account_ok : Account :=
  {| account_profile := profile_m30; requires_mfa := true; mfa_enabled := true;
     firstname := Some "A"; lastname := Some "B"; birthdate := Some 0%Z |}.

Definition two_rows : list (Z * HealthRecord) :=
  [(1%Z, sample_a); (5%Z, sample_b)].

Definition two_rows_chol : list (Z * HealthRecord) :=
  [(1%Z, sample_a_zero); (2%Z, sample_b_chol)].

(** Two stored rows of two users, and a valid update of the first one by
    its owner. *)
Definition demo_database : Database :=
  {| health_records :=
       [ {| row_id := 1; row_user := 7; row_recorded_at := 1;
            row_record := sample_a |};
         {| row_id := 2; row_user := 8; row_recorded_at := 2;
            row_record := sample_b |} ];
     user_activities := [] |}.

Definition demo_update : Request :=
  {| request_user := 7; request_account := account_ok;
     request_method := "POST";
     meta_remote_addr := Some "127.0.0.1"; meta_user_agent := None;
     posted_form := Some (3%Z, sample_b) |}.

Definition demo_show_stamp (stamp : Z) : string := "t".

(** Stand-ins for the date parameters: one text is a date, day 2. *)
Definition demo_strptime (text : string) : option Z :=
  if String.eqb text "2024-01-02" then Some 2%Z else None.

Definition demo_strftime (day : Z) : string := "d".

(** * Properties *)

(** ** Reflection of the comparisons *)

Lemma Qltb_iff (x y : Q) : Qltb x y = true <-> x < y.
Proof. unfold Qltb, Qlt. apply Z.ltb_lt. Qed.

Lemma Qleb_iff (x y : Q) : Qleb x y = true <-> x <= y.
Proof. apply Qle_bool_iff. Qed.

Lemma Qltb_spec (x y : Q) : BoolSpec (x < y) (y <= x) (Qltb x y).
Proof.
  destruct (Qltb x y) eqn:E; constructor.
  - now apply Qltb_iff.
  - apply Qnot_lt_le. intro H. apply Qltb_iff in H. congruence.
Qed.

Lemma Qleb_spec (x y : Q) : BoolSpec (x <= y) (y < x) (Qleb x y).
Proof.
  destruct (Qleb x y) eqn:E; constructor.
  - now apply Qleb_iff.
  - apply Qnot_le_lt. intro H. apply Qleb_iff in H. congruence.
Qed.

Lemma Qltb_false_iff (x y : Q) : Qltb x y = false <-> y <= x.
Proof. destruct (Qltb_spec x y); split; intros; try easy; lra. Qed.

Lemma Qleb_false_iff (x y : Q) : Qleb x y = false <-> y < x.
Proof. destruct (Qleb_spec x y); split; intros; try easy; lra. Qed.

(** Walk down an [if]/[elif] chain, one test at a time. *)
Ltac ladder :=
  repeat match goal with
         | |- context [if ?c then _ else _] => destruct c eqn:?
         end.

(** Turn the recorded outcomes of the tests into arithmetic facts. *)
Ltac tests_to_facts :=
  unfold Qbetween, Zbetween, Qgtb, Qgeb in *;
  rewrite ?Z.geb_leb in *;
  rewrite ?andb_true_iff, ?andb_false_iff, ?orb_true_iff, ?orb_false_iff in *;
  rewrite ?Z.ltb_lt, ?Z.ltb_ge, ?Z.leb_le, ?Z.leb_gt in *;
  rewrite ?Qltb_iff, ?Qltb_false_iff, ?Qleb_iff, ?Qleb_false_iff in *.

(** ** Blood pressure *)

(** The first half of the blood-pressure property: both components below
    120/80 give the optimal rung, class [success]. *)
Lemma bp_optimal_success (s d : Z) :
  (s < 120)%Z -> (d < 80)%Z ->
  bp_overview s d =
    [create_item Msg.bp_optimal "success";
     create_item Msg.bp_advice_keep "success"].
Proof.
  intros Hs Hd. unfold bp_overview.
  apply Z.ltb_lt in Hs, Hd. now rewrite Hs, Hd.
Qed.

(** Which pairs reach the stage-3 rung: those with a component at or
    above 180/110 that no earlier rung has caught. *)
Lemma bp_stage3_iff (s d : Z) :
  bp_overview s d =
    [create_item Msg.bp_stage3 "danger"; create_item Msg.bp_advice_now "danger"]
  <-> ((180 <= s)%Z \/ (110 <= d)%Z)
      /\ ~ (130 <= s <= 179)%Z /\ ~ (85 <= d <= 109)%Z.
Proof.
  unfold bp_overview, Zbetween. ladder; tests_to_facts;
    split; intro Hrung; try discriminate Hrung; try reflexivity; try lia.
Qed.

(** The two last rungs of the chain are dead: whenever one of their tests
    holds, an earlier rung has already fired. *)
Lemma bp_isolated_rungs_dead (s d : Z) :
  ((140 <= s)%Z /\ (d < 90)%Z) \/ ((s < 140)%Z /\ (90 <= d)%Z) ->
  map color (bp_overview s d) = ["warning"; "warning"]
  \/ map color (bp_overview s d) = ["danger"; "danger"]
     /\ map text (bp_overview s d) = [Msg.bp_stage3; Msg.bp_advice_now].
Proof.
  intros Htest. unfold bp_overview, Zbetween.
  ladder; tests_to_facts; cbn; auto; lia.
Qed.

(** C1.  A systolic value of 185 with a diastolic value of 85 satisfies
    [s >= 180], yet the chain stops at the elevated rung, whose test
    [85 <= d <= 89] comes first: the class is [warning], not [danger]. *)
Theorem bp_crisis_shadowed_185_85 :
  (185 >= 180)%Z
  /\ bp_overview 185 85 =
       [create_item Msg.bp_elevated "warning";
        create_item Msg.bp_advice_elevated "warning"]
  /\ map color (bp_overview 185 85) <> ["danger"; "danger"].
Proof.
  split; [lia | split; [reflexivity | discriminate]].
Qed.

(** ** BMI *)

(** The first half of the BMI property: class [success] exactly on the
    closed band 18.5 to 22.9. *)
Lemma bmi_success_iff (v : Q) :
  map color (bmi_overview v) = ["success"] <-> 18.5 <= v /\ v <= 22.9.
Proof.
  unfold bmi_overview, Qbetween. ladder; tests_to_facts; cbn;
    split; intro Hrung; try discriminate Hrung; try reflexivity; try lra.
Qed.

(** Where the bare [else] of the BMI ladder is reached: above 30, and in
    the two gaps that the closed bands leave open. *)
Lemma bmi_danger_iff (v : Q) :
  map color (bmi_overview v) = ["danger"]
  <-> 30 < v \/ (22.9 < v /\ v < 23) \/ (24.9 < v /\ v < 25).
Proof.
  unfold bmi_overview, Qbetween. ladder; tests_to_facts; cbn;
    split; intro Hrung; try discriminate Hrung; try reflexivity; try lra.
Qed.

(** C2.  A BMI of 22.95 lies between the bands 18.5 to 22.9 and 23 to
    24.9; the bare [else], commented [bmi > 30] in the source, takes it
    and reports obesity level 3, class [danger]. *)
Theorem bmi_gap_22_95_is_danger :
  ~ 30 < 22.95
  /\ bmi_overview 22.95 = [create_item Msg.bmi_obese3 "danger"].
Proof.
  split; [lra | reflexivity].
Qed.

(** ** Triglycerides *)

(** The three lower bands and the top band behave as the table says, for
    every available value. *)
Lemma tg_bands (v : Q) :
  ~ v == 0 ->
  (v < 150 -> tg_overview (Some v) = [create_item MsgLab.tg_normal "success"])
  /\ (150 <= v <= 199 ->
      tg_overview (Some v) = [create_item MsgLab.tg_borderline "warning"])
  /\ (200 <= v <= 499 ->
      tg_overview (Some v) = [create_item MsgLab.tg_high "warning"])
  /\ (500 <= v ->
      tg_overview (Some v) = [create_item MsgLab.tg_very_high "danger"]).
Proof.
  intros Hnz. unfold tg_overview, if_available.
  destruct (Qeq_bool v 0) eqn:Ez; [apply Qeq_bool_iff in Ez; contradiction|].
  unfold tg_ladder.
  repeat split; intros Hband; ladder; tests_to_facts;
    try reflexivity; exfalso; lra.
Qed.

(** Where the bare [else] of the triglycerides ladder is reached: from 500
    on, and in the two gaps that the closed bands leave open. *)
Lemma tg_very_high_iff (v : Q) :
  tg_ladder v = [create_item MsgLab.tg_very_high "danger"]
  <-> 500 <= v \/ (199 < v /\ v < 200) \/ (499 < v /\ v < 500).
Proof.
  unfold tg_ladder. ladder; tests_to_facts;
    split; intro Hrung; try discriminate Hrung; try reflexivity; try lra.
Qed.

(** C5.  A triglycerides value of 199.5 lies between the bands 150 to 199
    and 200 to 499; the bare [else], commented [tg >= 500] in the source,
    takes it and reports the very-high message, class [danger]. *)
Theorem tg_gap_199_5_is_very_high :
  ~ 500 <= 199.5
  /\ tg_overview (Some 199.5) = [create_item MsgLab.tg_very_high "danger"].
Proof.
  split; [lra | reflexivity].
Qed.

(** The helper agrees with the table on every band of the half-open
    reading, with no gap. *)
Lemma tg_status_bands (v : Q) :
  (v < 150 -> snd (get_triglycerides_status (Some v)) = Some "#28a745")
  /\ (150 <= v < 200 -> snd (get_triglycerides_status (Some v)) = Some "#ffc107")
  /\ (200 <= v < 500 -> snd (get_triglycerides_status (Some v)) = Some "#fd7e14")
  /\ (500 <= v -> snd (get_triglycerides_status (Some v)) = Some "#dc3545").
Proof.
  unfold get_triglycerides_status.
  repeat split; intros Hband; ladder; tests_to_facts;
    try reflexivity; exfalso; lra.
Qed.

(** C9.  On 199.5 the two classifiers part: the overview ladder falls to
    its [else] and answers [danger], the helper stays in its band
    [150 <= v < 200] and answers the warning colour [#ffc107]. *)
Theorem tg_classifiers_differ_at_199_5 :
  map color (tg_overview (Some 199.5)) = ["danger"]
  /\ get_triglycerides_status (Some 199.5) = (Some "สูงกว่าปกติ", Some "#ffc107").
Proof.
  split; reflexivity.
Qed.

(** ** Coverage of the ladders *)

(** X1.  Which pressure pairs get no item at all: the two mixed corners below
    130/85, where one component is optimal and the other only normal. *)
Lemma bp_unclassified_iff (s d : Z) :
  bp_overview s d = []
  <-> ((s < 120)%Z /\ (80 <= d <= 84)%Z) \/ ((120 <= s <= 129)%Z /\ (d < 80)%Z).
Proof.
  unfold bp_overview, Zbetween. ladder; tests_to_facts;
    split; intro Hrung; try discriminate Hrung; try reflexivity; try lia.
Qed.

(** X9.  Which visceral-fat values of the domain 1 to 30 get no item. *)
Lemma vf_unclassified_iff (v : Q) :
  1 <= v <= 30 ->
  (vf_overview v = [] <-> (9 < v /\ v < 10) \/ (14 < v /\ v < 15)).
Proof.
  intros Hdom. unfold vf_overview. ladder; tests_to_facts;
    split; intro Hrung; try discriminate Hrung; try reflexivity; try lra.
Qed.

(** Which fat-percent values of the domain 5 to 50 get no item for a
    female profile; the third gap is half a unit wide. *)
Lemma fat_female_unclassified_iff (v : Q) :
  5 <= v <= 50 ->
  (fat_overview "female" v = []
   <-> (19.9 < v /\ v < 20) \/ (29.9 < v /\ v < 30) \/ (34.5 < v /\ v < 35)).
Proof.
  intros Hdom. unfold fat_overview. cbn [String.eqb Ascii.eqb Bool.eqb].
  ladder; tests_to_facts;
    split; intro Hrung; try discriminate Hrung; try reflexivity; try lra.
Qed.

(** C4.  Inputs of the declared domains on which no rung fires: the
    pressure pair 115/82, a female fat percent of 34.7, a visceral fat of
    9.5 and, for a woman of 30, a muscle percent of 30.35. *)
Theorem ladders_leave_gaps :
  bp_overview 115 82 = []
  /\ fat_overview "female" 34.7 = []
  /\ vf_overview 9.5 = []
  /\ muscle_overview "female" 30 30.35 = [].
Proof.
  repeat split; reflexivity.
Qed.

(** ** Muscle percent *)

(** One ladder is monotone as soon as its literals are in order. *)
Lemma muscle_ladder_monotone (c1 c2 c3 c4 c5 v1 v2 : Q) (t1 t2 : MuscleTier) :
  c2 < c3 -> c4 < c5 -> c2 < c5 ->
  v1 <= v2 ->
  muscle_ladder c1 c2 c3 c4 c5 v1 = Some t1 ->
  muscle_ladder c1 c2 c3 c4 c5 v2 = Some t2 ->
  (tier_rank t1 <= tier_rank t2)%nat.
Proof.
  intros H23 H45 H25 Hle. unfold muscle_ladder. ladder; tests_to_facts;
    intros E1 E2; try discriminate E1; try discriminate E2;
    injection E1 as <-; injection E2 as <-; cbn; try lia; exfalso; lra.
Qed.

(** C6.  Under one profile, two values that both get a muscle tier get
    tiers in the order of the values: the larger value is never on a lower
    rung, whatever the sex and the age band. *)
Theorem muscle_tier_monotone (gender : string) (age : Z) (v1 v2 : Q)
    (t1 t2 : MuscleTier) :
  v1 <= v2 ->
  muscle_classify gender age v1 = Some t1 ->
  muscle_classify gender age v2 = Some t2 ->
  (tier_rank t1 <= tier_rank t2)%nat.
Proof.
  intros Hle. unfold muscle_classify.
  destruct (String.eqb gender "female");
    destruct (Zbetween 18 age 39);
    try (apply muscle_ladder_monotone; (assumption || lra));
    destruct (Zbetween 40 age 59);
    try (apply muscle_ladder_monotone; (assumption || lra));
    destruct (Zbetween 60 age 80);
    try (apply muscle_ladder_monotone; (assumption || lra));
    discriminate.
Qed.

Lemma muscle_tier_monotone_witness :
  35 <= 40
  /\ muscle_classify "male" 30 35 = Some MNormal
  /\ muscle_classify "male" 30 40 = Some MHigh
  /\ (tier_rank MNormal <= tier_rank MHigh)%nat.
Proof.
  assert (Hle : 35 <= 40) by (unfold Qle; simpl; lia).
  repeat split; try exact Hle.
  exact (muscle_tier_monotone "male" 30 35 40 MNormal MHigh Hle eq_refl eq_refl).
Defined.

(** The overview shows a muscle item exactly when a tier was found. *)
Lemma muscle_overview_empty_iff (gender : string) (age : Z) (v : Q) :
  muscle_overview gender age v = [] <-> muscle_classify gender age v = None.
Proof.
  unfold muscle_overview. destruct (muscle_classify gender age v); split;
    intro H; try discriminate H; reflexivity.
Qed.

(** C10.  Outside the ages 18 to 59 [get_muscle_normal_range] answers with
    the literals of its last branch, the range of the band 60 to 80, also
    below 18 and above 80, where the overview has no muscle rung at all. *)
Theorem muscle_range_outside_bands (p : Profile) :
  (age_years p < 18 \/ 59 < age_years p)%Z ->
  get_muscle_normal_range p =
    (if String.eqb (gender p) "female" then (23.9, 29.9) else (32.9, 38.9))
  /\ ((age_years p < 18 \/ 80 < age_years p)%Z ->
      forall muscle : Q,
        muscle_overview (gender p) (age_years p) muscle = []).
Proof.
  intros Hage. split.
  - unfold get_muscle_normal_range. cbv zeta.
    destruct (String.eqb (gender p) "female"); ladder; tests_to_facts;
      try reflexivity; exfalso; lia.
  - intros Hout muscle. apply muscle_overview_empty_iff.
    unfold muscle_classify.
    destruct (String.eqb (gender p) "female"); ladder; tests_to_facts;
      try reflexivity; exfalso; lia.
Qed.

Lemma muscle_range_outside_bands_witness :
  (age_years profile_f85 < 18 \/ 59 < age_years profile_f85)%Z
  /\ get_muscle_normal_range profile_f85 = (23.9, 29.9)
  /\ muscle_overview "female" 85 33 = [].
Proof.
  assert (Hage : (age_years profile_f85 < 18 \/ 59 < age_years profile_f85)%Z)
    by (right; reflexivity).
  split; [exact Hage|].
  split.
  - exact (proj1 (muscle_range_outside_bands profile_f85 Hage)).
  - exact (proj2 (muscle_range_outside_bands profile_f85 Hage)
             (or_intror eq_refl) 33).
Defined.

(** ** Waist *)






(** At the threshold itself, half the height as a decimal, the floats
    agree and the answer is the normal message. *)
Example waist_at_threshold :
  (float_of_decimal 63.1 =? float_of_decimal 126.2 / 2)%float = true
  /\ waist_overview 63.1 126.2 = [create_item Msg.waist_normal "success"]
  /\ waist_overview 85 170 = [create_item Msg.waist_normal "success"].
Proof.
  repeat split; vm_compute; reflexivity.
Qed.


(** ** Dictionary lookups *)

Lemma get_set {V : Type} (k k' : string) (v : V) (d : Dict.t V) :
  Dict.get k (Dict.set k' v d) =
    if String.eqb k k' then Some v else Dict.get k d.
Proof.
  induction d as [|[k0 v0] d IH]; cbn.
  - reflexivity.
  - destruct (String.eqb k' k0) eqn:E0; cbn.
    + apply String.eqb_eq in E0. subst k0.
      destruct (String.eqb k k'); reflexivity.
    + destruct (String.eqb k k0) eqn:E1.
      * destruct (String.eqb k k') eqn:E2; [|reflexivity].
        apply String.eqb_eq in E1, E2. subst k0 k'.
        rewrite String.eqb_refl in E0. discriminate E0.
      * apply IH.
Qed.

Lemma truthy_measured (o : option Q) : truthy o = true <-> measured o.
Proof.
  unfold truthy, measured. destruct o as [q|].
  - rewrite negb_true_iff. split.
    + intros E. exists q. split; [reflexivity|]. now apply Qeq_bool_neq.
    + intros (q' & E & Hnz). injection E as <-.
      destruct (Qeq_bool q 0) eqn:Ez; [|reflexivity].
      apply Qeq_bool_iff in Ez. contradiction.
  - split; [discriminate | intros (q & E & _); discriminate E].
Qed.

Lemma both_available_some (a b : option Q) (x y : Q) :
  both_available a b = Some (x, y) ->
  a = Some x /\ b = Some y /\ measured a /\ measured b.
Proof.
  unfold both_available. destruct a as [x'|], b as [y'|]; try discriminate.
  destruct (truthy (Some x') && truthy (Some y')) eqn:E; [|discriminate].
  apply andb_true_iff in E. destruct E as [Ea Eb].
  intros [= <- <-]. rewrite <- !truthy_measured. auto.
Qed.

Lemma both_available_is_some (a b : option Q) :
  (exists xy, both_available a b = Some xy) <-> measured a /\ measured b.
Proof.
  split.
  - intros [[x y] E]. apply both_available_some in E. tauto.
  - intros [Ha Hb]. apply truthy_measured in Ha, Hb.
    unfold both_available. destruct a as [x|], b as [y|]; try discriminate.
    rewrite Ha, Hb. cbn. eauto.
Qed.

Lemma inject_Z_sub (x y : Z) : inject_Z (x - y) == inject_Z x - inject_Z y.
Proof. unfold Z.sub. rewrite inject_Z_plus, inject_Z_opp. reflexivity. Qed.

Section ComparatorFacts.

Context {NormalRange : Type}.
Variable show_range : NormalRange -> string.
Variable fmt1 : Q -> string.
Variable methods : RecordMethods NormalRange.

Local Abbreviation table := (generate_comparison_table NormalRange fmt1 methods).
Local Abbreviation summary :=
  (generate_summary_info NormalRange show_range fmt1 methods).

(** Looking up a key after a guarded insertion. *)
Lemma get_set_if_both (k key : string) (f l : option Q)
    (st : option (Status NormalRange)) (d : Dict.t (Entry NormalRange)) :
  Dict.get k (set_if_both NormalRange fmt1 key f l st d) =
    if String.eqb k key then
      match both_available f l with
      | Some (x, y) => Some (lab_entry NormalRange fmt1 x y st)
      | None => Dict.get k d
      end
    else Dict.get k d.
Proof.
  unfold set_if_both. destruct (both_available f l) as [[x y]|].
  - apply get_set.
  - destruct (String.eqb k key); reflexivity.
Qed.

Ltac by_key :=
  repeat match goal with
         | |- context [String.eqb ?k ?s] =>
             is_var k;
             let E := fresh "K" in
             destruct (String.eqb k s) eqn:E;
             [apply String.eqb_eq in E; subst k; cbn | ]
         end.

(** Every entry of the table holds under [diff] the later value of its
    metric minus the earlier one. *)
Lemma table_entry_diff (a b : HealthRecord) (p : Profile) (key : string)
    (e : Entry NormalRange) :
  Dict.get key (table a b p) = Some e ->
  exists x y,
    metric_value key a = Some x /\ metric_value key b = Some y
    /\ diff e == y - x.
Proof.
  unfold generate_comparison_table, metric_value. cbv zeta.
  rewrite !get_set_if_both, !get_set. cbn [Dict.get].
  by_key.
  all: try match goal with
       | |- context [both_available ?f ?l] =>
           let B := fresh "B" in
           destruct (both_available f l) as [[? ?]|] eqn:B;
           [apply both_available_some in B; destruct B as (-> & -> & _)|]
       end.
  all: intros E; try discriminate E; injection E as <-.
  all: eexists _, _; (split; [reflexivity|split; [reflexivity|]]); cbn;
       try reflexivity; try apply inject_Z_sub.
Qed.

(** C7.  Comparing two records in one order and in the other gives, for
    every key that both tables hold, deltas that are the negation of
    each other. *)
Theorem compare_diff_negation (a b : HealthRecord) (p : Profile)
    (key : string) (e1 e2 : Entry NormalRange) :
  Dict.get key (table a b p) = Some e1 ->
  Dict.get key (table b a p) = Some e2 ->
  diff e2 == - diff e1.
Proof.
  intros H1 H2.
  apply table_entry_diff in H1. destruct H1 as (x & y & Ha & Hb & D1).
  apply table_entry_diff in H2. destruct H2 as (x' & y' & Hb' & Ha' & D2).
  rewrite Hb in Hb'. rewrite Ha in Ha'.
  injection Hb' as <-. injection Ha' as <-.
  rewrite D1, D2. ring.
Qed.

(** The lookup of a laboratory key. *)
Lemma table_get_lab (a b : HealthRecord) (p : Profile) (m : LabMetric) :
  Dict.get (lab_key m) (table a b p) =
    match both_available (lab_field m a) (lab_field m b) with
    | Some (x, y) =>
        Some (lab_entry NormalRange fmt1 x y
                (match m with
                 | Cholesterol => get_cholesterol_status _ methods b
                 | Ldl => get_ldl_status _ methods b
                 | Hdl => get_hdl_status _ methods b
                 | Fbs => get_fbs_status _ methods b
                 | Triglycerides => record_get_triglycerides_status _ methods b
                 end))
    | None => None
    end.
Proof.
  unfold generate_comparison_table. cbv zeta.
  rewrite !get_set_if_both, !get_set.
  destruct m; cbn;
    match goal with
    | |- context [both_available ?f ?l] =>
        destruct (both_available f l) as [[? ?]|]; reflexivity
    end.
Qed.

(** A laboratory key is in the table exactly when both values pass the
    availability test. *)
Lemma table_mem_lab (a b : HealthRecord) (p : Profile) (m : LabMetric) :
  Dict.mem (lab_key m) (table a b p) = true
  <-> measured (lab_field m a) /\ measured (lab_field m b).
Proof.
  unfold Dict.mem. rewrite table_get_lab, <- both_available_is_some.
  destruct (both_available (lab_field m a) (lab_field m b)) as [[x y]|].
  - split; eauto.
  - split; [discriminate | intros [xy E]; discriminate E].
Qed.

(** The summary is always built: the seven subscripted keys are in
    every table, and the twelve keys come in the order of the source. *)
Lemma summary_total (a b : HealthRecord) (p : Profile) :
  exists s_bmi s_waist s_sys s_dia s_fat s_vf s_muscle,
    summary a b p =
      Some
        [("bmi", s_bmi); ("waist", s_waist);
         ("blood_pressure_systolic", s_sys);
         ("blood_pressure_diastolic", s_dia);
         ("fat_percent", s_fat); ("visceral_fat", s_vf);
         ("muscle_percent", s_muscle);
         ("cholesterol", lab_sentence NormalRange "คอเลสเตอรอล" "cholesterol" (table a b p));
         ("ldl", lab_sentence NormalRange "LDL" "ldl" (table a b p));
         ("hdl", lab_sentence NormalRange "HDL" "hdl" (table a b p));
         ("fbs", lab_sentence NormalRange "น้ำตาลในเลือดขณะอดอาหาร" "fbs" (table a b p));
         ("triglycerides",
           lab_sentence NormalRange "ไตรกลีเซอไรด์" "triglycerides" (table a b p))].
Proof.
  unfold generate_summary_info. cbv zeta.
  set (t := table a b p).
  assert (Hcore : forall title key,
             In key ["bmi"; "waist"; "blood_pressure_systolic";
                     "blood_pressure_diastolic"; "fat_percent";
                     "visceral_fat"; "muscle_percent"] ->
             exists s, core_sentence NormalRange show_range title key t = Some s).
  { intros title key Hin. unfold core_sentence, t, generate_comparison_table.
    cbv zeta. rewrite !get_set_if_both, !get_set.
    cbn in Hin. repeat destruct Hin as [<-|Hin]; try contradiction;
      cbn; eauto. }
  destruct (Hcore "BMI" "bmi") as [s1 ->]; [cbn; tauto|].
  destruct (Hcore "รอบเอว" "waist") as [s2 ->]; [cbn; tauto|].
  destruct (Hcore "ความดันโลหิตตัวบน" "blood_pressure_systolic") as [s3 ->];
    [cbn; tauto|].
  destruct (Hcore "ความดันโลหิตตัวล่าง" "blood_pressure_diastolic") as [s4 ->];
    [cbn; tauto|].
  destruct (Hcore "เปอร์เซ็นต์ไขมัน" "fat_percent") as [s5 ->]; [cbn; tauto|].
  destruct (Hcore "เปอร์เซ็นต์ไขมันในช่องท้อง" "visceral_fat") as [s6 ->];
    [cbn; tauto|].
  destruct (Hcore "เปอร์เซ็นต์มวลกล้ามเนื้อ" "muscle_percent") as [s7 ->];
    [cbn; tauto|].
  cbn. now exists s1, s2, s3, s4, s5, s6, s7.
Qed.

(** C3, as the code has it.  A laboratory metric has an entry in the
    comparison table exactly when both records hold for it a value that
    is present and not zero; when it has no entry, the summary maps its
    key to the empty string. *)
Theorem lab_entry_presence (a b : HealthRecord) (p : Profile) (m : LabMetric) :
  (Dict.mem (lab_key m) (table a b p) = true
   <-> measured (lab_field m a) /\ measured (lab_field m b))
  /\ (Dict.mem (lab_key m) (table a b p) = false ->
      exists s, summary a b p = Some s /\ Dict.get (lab_key m) s = Some "").
Proof.
  split; [apply table_mem_lab|].
  intros Hno.
  destruct (summary_total a b p)
    as (s1 & s2 & s3 & s4 & s5 & s6 & s7 & ->).
  eexists. split; [reflexivity|].
  unfold Dict.mem in Hno.
  destruct m; cbn in Hno |- *; unfold lab_sentence;
    match goal with
    | |- context [Dict.get ?k ?t] => destruct (Dict.get k t)
    end; (discriminate Hno || reflexivity).
Qed.

End ComparatorFacts.

Lemma compare_diff_negation_witness :
  Dict.get "bmi" (demo_table sample_a sample_b)
    = Some (core_entry string demo_fmt1 24 21 demo_status)
  /\ Dict.get "bmi" (demo_table sample_b sample_a)
    = Some (core_entry string demo_fmt1 21 24 demo_status)
  /\ diff (core_entry string demo_fmt1 21 24 demo_status)
     == - diff (core_entry string demo_fmt1 24 21 demo_status).
Proof.
  split; [reflexivity|]. split; [reflexivity|].
  exact (compare_diff_negation demo_fmt1 demo_methods sample_a sample_b
           profile_m30 "bmi" _ _ eq_refl eq_refl).
Defined.

(** C3, as stated, fails on a stored zero: the earlier record holds the
    non-null cholesterol value 0 and the later one 180, and the table has
    no cholesterol entry. *)
Lemma zero_cholesterol_has_no_entry :
  ~ (Dict.mem "cholesterol" (demo_table sample_a_zero sample_b_chol) = true
     <-> cholesterol sample_a_zero <> None /\ cholesterol sample_b_chol <> None).
Proof.
  intros [_ Hback].
  assert (Hmem : Dict.mem "cholesterol" (demo_table sample_a_zero sample_b_chol)
                 = true) by (apply Hback; split; discriminate).
  vm_compute in Hmem. discriminate Hmem.
Qed.

(** With two measured values the entry is there, and its sentence is in
    the summary. *)
Example cholesterol_entry_and_sentence :
  Dict.mem "cholesterol" (demo_table sample_a_chol sample_b_chol) = true
  /\ exists s, demo_summary sample_a_chol sample_b_chol = Some s
            /\ Dict.get "cholesterol" s = Some "คอเลสเตอรอล ลดลง x.x".
Proof.
  split; [reflexivity|]. eexists. split; reflexivity.
Qed.

(** The scenario of the specification, run on the model: from [sample_a]
    to [sample_b] the BMI delta is -3, the fat percent of a man moves from
    the elevated rung to the normal one, and the later pressure is
    optimal. *)
Example scenario_male_30 :
  (exists e, Dict.get "bmi" (demo_table sample_a sample_b) = Some e
             /\ diff e == -3
             /\ entry_text e = "ลดลง x.x")
  /\ fat_overview (gender profile_m30) (fat_percent sample_a)
     = [create_item MsgBody.fat_elevated "warning"]
  /\ fat_overview (gender profile_m30) (fat_percent sample_b)
     = [create_item MsgBody.fat_normal "success"]
  /\ bp_overview (blood_pressure_systolic sample_b)
       (blood_pressure_diastolic sample_b)
     = [create_item Msg.bp_optimal "success";
        create_item Msg.bp_advice_keep "success"].
Proof.
  split.
  - eexists. split; [reflexivity|]. split; reflexivity.
  - repeat split; reflexivity.
Qed.

(** The waist rule on three records of height 170: two units under the
    threshold, half a unit over it, and three units over it. *)
Example waist_samples :
  waist_overview 83 170 = [create_item Msg.waist_very_good "success"]
  /\ waist_overview 85.5 170 = [create_item Msg.waist_normal "success"]
  /\ waist_overview 88 170 = [create_item Msg.waist_exceeds "danger"].
Proof.
  repeat split; reflexivity.
Qed.

(** The keys of the table come in insertion order, the laboratory keys
    last and only when measured on both sides. *)
Example table_keys_in_order :
  Dict.keys (demo_table sample_a_chol sample_b_chol) =
    ["bmi"; "fat_percent"; "visceral_fat"; "muscle_percent";
     "blood_pressure_systolic"; "blood_pressure_diastolic"; "waist";
     "cholesterol"]
  /\ Dict.keys (demo_table sample_a_zero sample_b_chol) =
    ["bmi"; "fat_percent"; "visceral_fat"; "muscle_percent";
     "blood_pressure_systolic"; "blood_pressure_diastolic"; "waist"].
Proof.
  split; reflexivity.
Qed.

(** * Further properties of the code *)

(** Facts about a value with one decimal, [n # 10], become facts about
    the integer [n]. *)
Ltac tenths := unfold Qlt, Qle in *; cbn in *; lia.

(** ** The ladders, rung by rung *)

(** X2.  The two isolated-hypertension messages and their advice are
    never shown, whatever the pressure pair. *)
Theorem bp_isolated_never_shown (s d : Z) :
  ~ In Msg.bp_isolated_systolic (map text (bp_overview s d))
  /\ ~ In Msg.bp_isolated_diastolic (map text (bp_overview s d))
  /\ ~ In Msg.bp_advice_staff (map text (bp_overview s d)).
Proof.
  unfold bp_overview, Zbetween. ladder; tests_to_facts; cbn;
    try (repeat split; intros Hin;
         repeat destruct Hin as [Hin|Hin]; (discriminate Hin || exact Hin));
    exfalso; lia.
Qed.

(** X3.  On BMI values with one decimal the five bands tile the line:
    below 18.5, 18.5 to 22.9, 23.0 to 24.9, 25.0 to 30.0, above 30.0, and
    the obesity message is shown only above 30. *)
Theorem bmi_one_decimal_table (n : Z) :
  (n < 185 -> bmi_overview (n # 10) = [create_item Msg.bmi_under "warning"])%Z
  /\ (185 <= n <= 229 ->
      bmi_overview (n # 10) = [create_item Msg.bmi_normal "success"])%Z
  /\ (230 <= n <= 249 ->
      bmi_overview (n # 10) = [create_item Msg.bmi_over1 "warning"])%Z
  /\ (250 <= n <= 300 ->
      bmi_overview (n # 10) = [create_item Msg.bmi_over2 "warning"])%Z
  /\ (300 < n ->
      bmi_overview (n # 10) = [create_item Msg.bmi_obese3 "danger"])%Z.
Proof.
  unfold bmi_overview.
  repeat split; intros Hband; ladder; tests_to_facts;
    try reflexivity; exfalso; tenths.
Qed.

(** X4.  Fasting blood sugar: class [success] below 100, [warning] from
    100 to 125, and [danger] for everything above 125, not only from 126
    on. *)
Theorem fbs_ladder_classes (v : Q) :
  (map color (fbs_ladder v) = ["success"] <-> v < 100)
  /\ (map color (fbs_ladder v) = ["warning"] <-> 100 <= v /\ v <= 125)
  /\ (map color (fbs_ladder v) = ["danger"] <-> 125 < v).
Proof.
  unfold fbs_ladder. ladder; tests_to_facts; cbn;
    (split; [|split]); (split; intros Hc);
    try discriminate Hc; try reflexivity; try lra.
Qed.

(** X5.  On whole, non-zero triglycerides values the overview ladder and
    [get_triglycerides_status] agree: success with green, warning with
    yellow or orange, danger with red. *)
Theorem tg_classifiers_agree_on_integers (n : Z) :
  n <> 0%Z ->
  let overview := map color (tg_overview (Some (inject_Z n))) in
  let helper := snd (get_triglycerides_status (Some (inject_Z n))) in
  (overview = ["success"] <-> helper = Some "#28a745")
  /\ (overview = ["warning"]
      <-> helper = Some "#ffc107" \/ helper = Some "#fd7e14")
  /\ (overview = ["danger"] <-> helper = Some "#dc3545").
Proof.
  intros Hnz. cbv zeta. unfold tg_overview, if_available.
  destruct (Qeq_bool (inject_Z n) 0) eqn:Ez.
  { apply Qeq_bool_iff in Ez. unfold Qeq in Ez. cbn in Ez. lia. }
  unfold tg_ladder, get_triglycerides_status.
  ladder; tests_to_facts; cbn;
    try (repeat split; intros Hc;
         repeat match goal with H : _ \/ _ |- _ => destruct H end;
         try discriminate; auto; fail);
    exfalso; tenths.
Qed.

Lemma tg_classifiers_agree_on_integers_witness :
  199%Z <> 0%Z
  /\ (map color (tg_overview (Some (inject_Z 199))) = ["warning"]
      <-> snd (get_triglycerides_status (Some (inject_Z 199))) = Some "#ffc107"
          \/ snd (get_triglycerides_status (Some (inject_Z 199)))
             = Some "#fd7e14").
Proof.
  assert (Hnz : 199%Z <> 0%Z) by discriminate.
  split; [exact Hnz|].
  exact (proj1 (proj2 (tg_classifiers_agree_on_integers 199 Hnz))).
Defined.

(** The colours of the helper, band by band. *)
Lemma tg_status_colours (v : Q) :
  get_triglycerides_status None = (None, None)
  /\ fst (get_triglycerides_status (Some v)) <> None
  /\ (snd (get_triglycerides_status (Some v)) = Some "#28a745" <-> v < 150)
  /\ (snd (get_triglycerides_status (Some v)) = Some "#ffc107"
      <-> 150 <= v /\ v < 200)
  /\ (snd (get_triglycerides_status (Some v)) = Some "#fd7e14"
      <-> 200 <= v /\ v < 500)
  /\ (snd (get_triglycerides_status (Some v)) = Some "#dc3545" <-> 500 <= v).
Proof.
  split; [reflexivity|]. unfold get_triglycerides_status.
  ladder; tests_to_facts; cbn;
    (split; [discriminate|]); (split; [|split; [|split]]);
    (split; intros Hc); try discriminate Hc; try reflexivity; try lra.
Qed.

(** X6.  A gender value that is neither [male] nor [female] is read as
    male by the fat and muscle ladders, which test for [female], and as
    female by the HDL ladder, which tests for [male]. *)
Theorem other_gender_tables (g : string) (age : Z) (v : Q) :
  g <> "male" -> g <> "female" ->
  fat_overview g v = fat_overview "male" v
  /\ muscle_classify g age v = muscle_classify "male" age v
  /\ hdl_ladder g v = hdl_ladder "female" v.
Proof.
  intros Hm Hf. apply String.eqb_neq in Hm, Hf.
  unfold fat_overview, muscle_classify, hdl_ladder. rewrite Hm, Hf.
  repeat split; reflexivity.
Qed.

Lemma other_gender_tables_witness :
  "other" <> "male" /\ "other" <> "female"
  /\ fat_overview "other" 22 = fat_overview "male" 22
  /\ muscle_classify "other" 30 35 = muscle_classify "male" 30 35
  /\ hdl_ladder "other" 45 = hdl_ladder "female" 45.
Proof.
  assert (Hm : "other" <> "male") by discriminate.
  assert (Hf : "other" <> "female") by discriminate.
  split; [exact Hm|]. split; [exact Hf|].
  split; [exact (proj1 (other_gender_tables "other" 30 22 Hm Hf))|].
  split; [exact (proj1 (proj2 (other_gender_tables "other" 30 35 Hm Hf)))|].
  exact (proj2 (proj2 (other_gender_tables "other" 30 45 Hm Hf))).
Defined.

(** X7.  On fat-percent values with one decimal between 5 and 50 the
    male ladder always answers; the female ladder is silent exactly on
    34.6 to 34.9. *)
Theorem fat_one_decimal_coverage (g : string) (n : Z) :
  (50 <= n <= 500)%Z ->
  (g <> "female" -> fat_overview g (n # 10) <> [])
  /\ (fat_overview "female" (n # 10) = [] <-> (345 < n < 350)%Z).
Proof.
  intros Hdom. split.
  - intros Hg. apply String.eqb_neq in Hg. unfold fat_overview. rewrite Hg.
    ladder; tests_to_facts; try discriminate; exfalso; tenths.
  - unfold fat_overview. cbn [String.eqb Ascii.eqb Bool.eqb].
    ladder; tests_to_facts; split; intros Hc;
      try discriminate Hc; try reflexivity; tenths.
Qed.

Lemma fat_one_decimal_coverage_witness :
  (50 <= 347 <= 500)%Z
  /\ fat_overview "male" (347 # 10) <> []
  /\ fat_overview "female" (347 # 10) = [].
Proof.
  assert (Hdom : (50 <= 347 <= 500)%Z) by lia.
  split; [exact Hdom|]. split.
  - apply (proj1 (fat_one_decimal_coverage "male" 347 Hdom)). discriminate.
  - apply (proj2 (fat_one_decimal_coverage "male" 347 Hdom)). lia.
Defined.

(** X8.  The fat ladder shows its normal message exactly on the range
    that [get_fat_normal_range] gives for the profile. *)
Theorem fat_normal_matches_range (p : Profile) (v : Q) :
  fat_overview (gender p) v = [create_item MsgBody.fat_normal "success"]
  <-> fst (get_fat_normal_range p) <= v /\ v <= snd (get_fat_normal_range p).
Proof.
  unfold fat_overview, get_fat_normal_range.
  destruct (String.eqb (gender p) "female"); ladder; tests_to_facts; cbn;
    split; intros Hc; try discriminate Hc; try reflexivity; try lra.
Qed.

Lemma vf_unclassified_iff_witness :
  (1 <= 9.5 <= 30)
  /\ (vf_overview 9.5 = [] <-> (9 < 9.5 /\ 9.5 < 10) \/ (14 < 9.5 /\ 9.5 < 15)).
Proof.
  assert (Hdom : 1 <= 9.5 <= 30) by (split; discriminate).
  split; [exact Hdom | exact (vf_unclassified_iff 9.5 Hdom)].
Defined.

(** X10.  For every age from 18 to 80 a muscle percent with one decimal
    always gets a tier. *)
Theorem muscle_one_decimal_coverage (g : string) (age n : Z) :
  (18 <= age <= 80)%Z -> muscle_classify g age (n # 10) <> None.
Proof.
  intros Hage. unfold muscle_classify, muscle_ladder.
  destruct (String.eqb g "female"); ladder; tests_to_facts;
    try discriminate; exfalso; tenths.
Qed.

Lemma muscle_one_decimal_coverage_witness :
  (18 <= 30 <= 80)%Z /\ muscle_classify "female" 30 (303 # 10) <> None.
Proof.
  assert (Hage : (18 <= 30 <= 80)%Z) by lia.
  split; [exact Hage | exact (muscle_one_decimal_coverage "female" 30 303 Hage)].
Defined.

(** X11.  For every age from 18 to 80 the muscle ladder answers [normal]
    exactly on the range that [get_muscle_normal_range] gives for the
    profile. *)
Theorem muscle_normal_matches_range (p : Profile) (v : Q) :
  (18 <= age_years p <= 80)%Z ->
  (muscle_classify (gender p) (age_years p) v = Some MNormal
   <-> fst (get_muscle_normal_range p) <= v
       /\ v <= snd (get_muscle_normal_range p)).
Proof.
  intros Hage. unfold muscle_classify, get_muscle_normal_range, muscle_ladder.
  cbv zeta.
  destruct (String.eqb (gender p) "female"); ladder; tests_to_facts; cbn;
    split; intros Hc; try discriminate Hc; try reflexivity;
    try lra; exfalso; lia.
Qed.

Lemma muscle_normal_matches_range_witness :
  (18 <= age_years profile_m30 <= 80)%Z
  /\ (muscle_classify "male" 30 35 = Some MNormal
      <-> fst (get_muscle_normal_range profile_m30) <= 35
          /\ 35 <= snd (get_muscle_normal_range profile_m30)).
Proof.
  assert (Hage : (18 <= age_years profile_m30 <= 80)%Z) by (cbn; lia).
  split; [exact Hage | exact (muscle_normal_matches_range profile_m30 35 Hage)].
Defined.

(** ** The overview as a whole *)

(** Open every section of the overview down to its rungs. *)
Ltac open_sections :=
  unfold bp_overview, waist_overview, bmi_overview, fat_overview, vf_overview,
    muscle_overview, muscle_classify, muscle_ladder, tg_overview, if_available,
    chol_ladder, ldl_ladder, hdl_ladder, fbs_ladder, tg_ladder;
  cbv zeta.

Ltac each_rung :=
  repeat match goal with
         | |- context [match ?o with Some _ => _ | None => _ end] =>
             destruct o
         | |- context [if ?c then _ else _] => destruct c
         end;
  try match goal with t : MuscleTier |- _ => destruct t end.

Section OverviewInvariants.

Context {St : Type}.
Variables (record : HealthRecord) (profile : Profile).
Variables (bmi_status fat_status visceral_status muscle_status : St).

(** X12.  Every item of the overview carries one of the three alert
    classes; the default class [info] of [create_item] is never used. *)
Theorem overview_colors :
  Forall (fun item => In (color item) ["success"; "warning"; "danger"])
    (generate_health_overview record profile
       bmi_status fat_status visceral_status muscle_status).
Proof.
  unfold generate_health_overview. repeat rewrite Forall_app.
  repeat split; open_sections; each_rung;
    repeat (apply Forall_cons || apply Forall_nil); cbn; auto 6.
Qed.

(** X13.  The field [severity] of an item is [normal], except on the
    very-high muscle item. *)
Theorem overview_severity :
  Forall (fun item => severity item = "normal"
                      \/ item = muscle_item MVeryHigh)
    (generate_health_overview record profile
       bmi_status fat_status visceral_status muscle_status).
Proof.
  unfold generate_health_overview. repeat rewrite Forall_app.
  repeat split; open_sections; each_rung;
    repeat (apply Forall_cons || apply Forall_nil); cbn; auto 6.
Qed.


End OverviewInvariants.

(** ** The trend text *)

(** The three shapes of a trend text. *)
Lemma comparison_text_cases (fmt1 : Q -> string) (d : Q) :
  (0 < d /\ get_comparison_text fmt1 d = "เพิ่มขึ้น " ++ fmt1 (Qabs d))
  \/ (d < 0 /\ get_comparison_text fmt1 d = "ลดลง " ++ fmt1 (Qabs d))
  \/ (d == 0 /\ get_comparison_text fmt1 d = "เท่าเดิม").
Proof.
  unfold get_comparison_text. ladder; tests_to_facts.
  - left. auto.
  - right. left. auto.
  - right. right. split; [lra | reflexivity].
Qed.

Lemma comparison_text_of_zero (fmt1 : Q -> string) (d : Q) :
  d == 0 -> get_comparison_text fmt1 d = "เท่าเดิม".
Proof.
  intros Hz.
  destruct (comparison_text_cases fmt1 d) as [[Hs _]|[[Hs _]|[_ E]]];
    [lra | lra | exact E].
Qed.

(** X15.  The trend text is the word for [unchanged] exactly when the
    difference is zero. *)
Theorem comparison_text_unchanged_iff (fmt1 : Q -> string) (d : Q) :
  get_comparison_text fmt1 d = "เท่าเดิม" <-> d == 0.
Proof.
  destruct (comparison_text_cases fmt1 d) as [[Hs ->]|[[Hs ->]|[Hs ->]]].
  - split; [cbn; discriminate | lra].
  - split; [cbn; discriminate | lra].
  - tauto.
Qed.

Lemma Qabs_sub_swap (x y : Q) : Qabs (x - y) = Qabs (y - x).
Proof.
  destruct x as [a b], y as [c d]. unfold Qminus, Qplus, Qopp, Qabs. cbn.
  f_equal; [lia | apply Pos.mul_comm].
Qed.

(** X16.  Swapping the two values flips the word of the trend text and
    keeps the rendered magnitude; equal values give [unchanged] both
    ways. *)
Theorem comparison_text_mirror (fmt1 : Q -> string) (x y : Q) :
  (x < y ->
   get_comparison_text fmt1 (y - x) = "เพิ่มขึ้น " ++ fmt1 (Qabs (y - x))
   /\ get_comparison_text fmt1 (x - y) = "ลดลง " ++ fmt1 (Qabs (y - x)))
  /\ (x == y ->
      get_comparison_text fmt1 (y - x) = "เท่าเดิม"
      /\ get_comparison_text fmt1 (x - y) = "เท่าเดิม").
Proof.
  split.
  - intros Hlt. split.
    + destruct (comparison_text_cases fmt1 (y - x)) as [[_ E]|[[Hs _]|[Hs _]]];
        [exact E | lra | lra].
    + rewrite (Qabs_sub_swap y x).
      destruct (comparison_text_cases fmt1 (x - y)) as [[Hs _]|[[_ E]|[Hs _]]];
        [lra | exact E | lra].
  - intros Heq. split; apply comparison_text_of_zero; lra.
Qed.

(** ** The comparison table, entry by entry *)

Lemma both_available_truthy (a b : option Q) :
  (exists xy, both_available a b = Some xy /\ truthy a && truthy b = true)
  \/ (both_available a b = None /\ truthy a && truthy b = false).
Proof.
  unfold both_available. destruct a as [x|], b as [y|]; cbn; auto.
  - destruct (negb (Qeq_bool x 0) && negb (Qeq_bool y 0)); eauto.
  - right. split; [reflexivity | apply andb_false_r].
Qed.

Lemma both_available_swap_none (a b : option Q) :
  both_available a b = None <-> both_available b a = None.
Proof.
  unfold both_available. destruct a as [x|], b as [y|]; try tauto.
  rewrite (andb_comm (truthy (Some y))).
  destruct (truthy (Some x) && truthy (Some y)); split; intros E;
    (discriminate E || reflexivity).
Qed.

Section ComparatorEntries.

Context {NormalRange : Type}.
Variable show_range : NormalRange -> string.
Variable fmt1 : Q -> string.
Variable methods : RecordMethods NormalRange.

Local Abbreviation table := (generate_comparison_table NormalRange fmt1 methods).
Local Abbreviation summary :=
  (generate_summary_info NormalRange show_range fmt1 methods).

(** Split on the key that a lookup asks for. *)
Ltac on_key :=
  repeat match goal with
         | |- context [String.eqb ?k ?s] =>
             is_var k;
             let E := fresh "K" in
             destruct (String.eqb k s) eqn:E;
             [apply String.eqb_eq in E; subst k; cbn | ]
         end.

Ltac on_availability :=
  repeat match goal with
         | |- context [both_available ?f ?l] =>
             let B := fresh "B" in
             destruct (both_available f l) as [[? ?]|] eqn:B;
             [apply both_available_some in B; destruct B as (-> & -> & _)|]
         end.

(** X17.  An entry of the table holds the earlier value of its metric as
    [start_value], the later one as [end_value], their difference as
    [diff], and the trend text of that difference. *)
Theorem table_entry_values (a b : HealthRecord) (p : Profile) (key : string)
    (e : Entry NormalRange) :
  Dict.get key (table a b p) = Some e ->
  metric_value key a = Some (start_value e)
  /\ metric_value key b = Some (end_value e)
  /\ diff e == end_value e - start_value e
  /\ entry_text e = get_comparison_text fmt1 (diff e).
Proof.
  unfold generate_comparison_table, metric_value. cbv zeta.
  rewrite !get_set_if_both, !get_set. cbn [Dict.get].
  on_key.
  all: on_availability.
  all: intros E; try discriminate E; injection E as <-.
  all: cbn; repeat split; try reflexivity; apply inject_Z_sub.
Qed.

(** X18.  Comparing a record with itself gives, under every key, equal
    ends, a zero difference and the text for [unchanged]. *)
Theorem table_same_record (a : HealthRecord) (p : Profile) (key : string)
    (e : Entry NormalRange) :
  Dict.get key (table a a p) = Some e ->
  start_value e = end_value e
  /\ diff e == 0
  /\ entry_text e = "เท่าเดิม".
Proof.
  unfold generate_comparison_table. cbv zeta.
  rewrite !get_set_if_both, !get_set. cbn [Dict.get].
  on_key.
  all: try match goal with
       | |- context [both_available ?f ?f] =>
           let B := fresh "B" in
           destruct (both_available f f) as [[? ?]|] eqn:B;
           [apply both_available_some in B; destruct B as (E1 & E2 & _);
            rewrite E1 in E2; injection E2 as <-|]
       end.
  all: intros E; try discriminate E; injection E as <-.
  all: cbn; split; [reflexivity|].
  all: match goal with
       | |- ?d == 0 /\ _ =>
           assert (Hz : d == 0)
             by (try ring; rewrite Z.sub_diag; reflexivity);
           split; [exact Hz | now apply comparison_text_of_zero]
       end.
Qed.

(** X19.  The colour and the normal range of an entry come from the
    later record alone: another earlier record, another profile, the
    same colour and range. *)
Theorem table_status_from_later (a a' b : HealthRecord) (p p' : Profile)
    (key : string) (e e' : Entry NormalRange) :
  Dict.get key (table a b p) = Some e ->
  Dict.get key (table a' b p') = Some e' ->
  entry_color e = entry_color e' /\ normal_range e = normal_range e'.
Proof.
  unfold generate_comparison_table. cbv zeta.
  rewrite !get_set_if_both, !get_set. cbn [Dict.get].
  on_key.
  all: on_availability.
  all: intros E E'; try discriminate E; try discriminate E';
       injection E as <-; injection E' as <-.
  all: split; reflexivity.
Qed.

(** X20.  A key is in the table of (a, b) exactly when it is in the table
    of (b, a). *)
Theorem table_mem_symmetric (a b : HealthRecord) (p : Profile) (key : string) :
  Dict.mem key (table a b p) = Dict.mem key (table b a p).
Proof.
  unfold Dict.mem, generate_comparison_table. cbv zeta.
  rewrite !get_set_if_both, !get_set. cbn [Dict.get].
  on_key; try reflexivity;
    match goal with
    | |- context [both_available ?f ?l] =>
        let B := fresh "B" in
        destruct (both_available f l) as [[? ?]|] eqn:B;
        [ destruct (both_available l f) as [[? ?]|] eqn:B';
          [ reflexivity | apply both_available_swap_none in B'; congruence ]
        | apply both_available_swap_none in B; rewrite B; reflexivity ]
    end.
Qed.

(** X21.  The keys of the table, in order: the seven core keys, then the
    keys of the laboratory metrics that pass the availability test on
    both records, in the order cholesterol, ldl, hdl, fbs,
    triglycerides. *)
Theorem table_keys (a b : HealthRecord) (p : Profile) :
  Dict.keys (table a b p) =
    (core_keys
     ++ map lab_key
          (filter (fun m => truthy (lab_field m a) && truthy (lab_field m b))
             lab_metrics))%list.
Proof.
  unfold generate_comparison_table, set_if_both, lab_metrics, core_keys.
  cbv zeta. cbn [filter lab_field].
  destruct (both_available_truthy (cholesterol a) (cholesterol b))
    as [([x1 y1] & -> & ->)|[-> ->]];
  destruct (both_available_truthy (ldl a) (ldl b))
    as [([x2 y2] & -> & ->)|[-> ->]];
  destruct (both_available_truthy (hdl a) (hdl b))
    as [([x3 y3] & -> & ->)|[-> ->]];
  destruct (both_available_truthy (fbs a) (fbs b))
    as [([x4 y4] & -> & ->)|[-> ->]];
  destruct (both_available_truthy (triglycerides a) (triglycerides b))
    as [([x5 y5] & -> & ->)|[-> ->]];
  reflexivity.
Qed.

(** X22.  [generate_summary_info] never fails on a missing key: it
    always returns a dictionary, with the twelve keys of the source in
    their order. *)
Theorem summary_has_twelve_keys (a b : HealthRecord) (p : Profile) :
  exists s, summary a b p = Some s /\ Dict.keys s = summary_keys.
Proof.
  destruct (summary_total show_range fmt1 methods a b p)
    as (s1 & s2 & s3 & s4 & s5 & s6 & s7 & ->).
  eexists. split; reflexivity.
Qed.

(** X23.  In the summary the sentence of a laboratory metric is empty
    exactly when the table has no entry for it. *)
Theorem summary_lab_sentence_empty_iff (a b : HealthRecord) (p : Profile)
    (m : LabMetric) (s : Dict.t string) :
  summary a b p = Some s ->
  (Dict.get (lab_key m) s = Some ""
   <-> Dict.mem (lab_key m) (table a b p) = false).
Proof.
  destruct (summary_total show_range fmt1 methods a b p)
    as (s1 & s2 & s3 & s4 & s5 & s6 & s7 & ->).
  intros [= <-]. unfold Dict.mem.
  destruct m; cbn; unfold lab_sentence;
    match goal with
    | |- context [Dict.get ?k ?t] => destruct (Dict.get k t)
    end; cbn; split; intros E; (discriminate E || reflexivity).
Qed.

End ComparatorEntries.

Lemma table_entry_values_witness :
  Dict.get "bmi" (demo_table sample_a sample_b)
    = Some (core_entry string demo_fmt1 24 21 demo_status)
  /\ metric_value "bmi" sample_a = Some 24
  /\ metric_value "bmi" sample_b = Some 21.
Proof.
  split; [reflexivity|].
  destruct (table_entry_values demo_fmt1 demo_methods sample_a sample_b
              profile_m30 "bmi" _ eq_refl) as (Hs & He & _).
  split; [exact Hs | exact He].
Defined.

Lemma table_same_record_witness :
  Dict.get "waist" (demo_table sample_a sample_a)
    = Some (core_entry string demo_fmt1 80 80 demo_status)
  /\ entry_text (core_entry string demo_fmt1 80 80 demo_status) = "เท่าเดิม".
Proof.
  split; [reflexivity|].
  exact (proj2 (proj2 (table_same_record demo_fmt1 demo_methods sample_a
                         profile_m30 "waist" _ eq_refl))).
Defined.

Lemma table_status_from_later_witness :
  Dict.get "bmi" (demo_table sample_a sample_b)
    = Some (core_entry string demo_fmt1 24 21 demo_status)
  /\ Dict.get "bmi" (demo_table sample_b sample_b)
    = Some (core_entry string demo_fmt1 21 21 demo_status)
  /\ entry_color (core_entry string demo_fmt1 24 21 demo_status)
     = entry_color (core_entry string demo_fmt1 21 21 demo_status).
Proof.
  split; [reflexivity|]. split; [reflexivity|].
  exact (proj1 (table_status_from_later demo_fmt1 demo_methods
                  sample_a sample_b sample_b profile_m30 profile_f85
                  "bmi" _ _ eq_refl eq_refl)).
Defined.

Lemma summary_lab_sentence_empty_iff_witness :
  exists s,
    demo_summary sample_a_zero sample_b_chol = Some s
    /\ Dict.get "cholesterol" s = Some "".
Proof.
  eexists. split; [reflexivity|].
  apply (proj2 (summary_lab_sentence_empty_iff demo_show demo_fmt1 demo_methods
                  sample_a_zero sample_b_chol profile_m30 Cholesterol _
                  eq_refl)).
  reflexivity.
Defined.

(** ** The graph *)

(** The available values are at most one per record. *)
Lemma available_values_length (f : HealthRecord -> option Q)
    (records : list HealthRecord) :
  (length (available_values f records) <= length records)%nat
  /\ (length (available_values f records) = length records
      <-> Forall (fun r => truthy (f r) = true) records).
Proof.
  unfold available_values.
  induction records as [|r rs [IHle IHeq]]; cbn.
  - split; [lia | split; [constructor | reflexivity]].
  - rewrite length_app.
    assert (Hr : (truthy (f r) = true
                  /\ length (if_available (f r) (fun q => [q])) = 1%nat)
                 \/ (truthy (f r) = false
                     /\ length (if_available (f r) (fun q => [q])) = 0%nat)).
    { unfold truthy, if_available. destruct (f r) as [q|]; [|auto].
      destruct (Qeq_bool q 0); cbn; auto. }
    destruct Hr as [[Ht ->]|[Ht ->]].
    + split; [lia|]. split.
      * intros E. constructor; [exact Ht | apply IHeq; lia].
      * intros HF. inversion HF; subst. cbn. f_equal. now apply IHeq.
    + split; [lia|]. split.
      * intros E. cbn in E. lia.
      * intros HF. inversion HF; subst. congruence.
Qed.

(** X24.  A metric name that is not one of the twelve keys of the
    configuration gives the BMI graph. *)
Theorem graph_unknown_metric_falls_back (records : list (Z * HealthRecord))
    (metric_name : string) (profile : Profile) :
  ~ In metric_name summary_keys ->
  generate_metric_graph records metric_name profile
  = generate_metric_graph records "bmi" profile.
Proof.
  intros Hout. unfold generate_metric_graph.
  destruct records as [|r rs]; [reflexivity|]. cbv zeta.
  assert (Hget : Dict.get metric_name
                   (metric_config (map snd (r :: rs)) profile) = None).
  { unfold metric_config. cbn [Dict.get].
    repeat match goal with
           | |- context [String.eqb metric_name ?s] =>
               let E := fresh "K" in
               destruct (String.eqb metric_name s) eqn:E;
               [apply String.eqb_eq in E; exfalso; apply Hout; rewrite E;
                unfold summary_keys; cbn; tauto | ]
           end.
    reflexivity. }
  rewrite Hget. reflexivity.
Qed.

Lemma graph_unknown_metric_falls_back_witness :
  ~ In "weight" summary_keys
  /\ generate_metric_graph two_rows "weight" profile_m30
     = generate_metric_graph two_rows "bmi" profile_m30.
Proof.
  assert (Hout : ~ In "weight" summary_keys).
  { unfold summary_keys. cbn. intros H.
    repeat destruct H as [H|H]; (discriminate H || exact H). }
  split; [exact Hout|].
  exact (graph_unknown_metric_falls_back _ "weight" profile_m30 Hout).
Defined.

(** X25.  The graph of a laboratory metric exists exactly when every
    record passes the availability test for it: the plot then has the
    available values, one per date.  When a record lacks the value the
    series is shorter than the date axis and the plotting call raises
    [ValueError]. *)
Theorem graph_lab_series (records : list (Z * HealthRecord)) (m : LabMetric)
    (profile : Profile) :
  records <> [] ->
  (Forall (fun r => truthy (lab_field m (snd r)) = true) records ->
   exists plot,
     generate_metric_graph records (lab_key m) profile = Returns (Graph plot)
     /\ plot_dates plot = map fst records
     /\ config_values (plot_config plot)
        = available_values (lab_field m) (map snd records)
     /\ length (config_values (plot_config plot)) = length (plot_dates plot))
  /\ (~ Forall (fun r => truthy (lab_field m (snd r)) = true) records ->
      generate_metric_graph records (lab_key m) profile = Raises ValueError
      /\ (length (available_values (lab_field m) (map snd records))
          < length records)%nat).
Proof.
  intros Hne. destruct records as [|r rs]; [contradiction|].
  set (rows := r :: rs).
  destruct (available_values_length (lab_field m) (map snd rows)) as [Hle Heq].
  rewrite length_map in Hle, Heq. rewrite Forall_map in Heq.
  assert (Hshape :
    generate_metric_graph rows (lab_key m) profile
    = if Nat.eqb (length (map fst rows))
           (length (available_values (lab_field m) (map snd rows)))
      then Returns
             (Graph {| plot_dates := map fst rows;
                       plot_config :=
                         match Dict.get (lab_key m)
                                 (metric_config (map snd rows) profile) with
                         | Some c => c
                         | None =>
                             {| config_values := [];
                                config_title := ""; config_ylabel := "";
                                config_normal_range := (0, 0) |}
                         end |})
      else Raises ValueError).
  { unfold generate_metric_graph. fold rows. cbv zeta.
    destruct m;
      cbn [lab_key Dict.get metric_config String.eqb Ascii.eqb Bool.eqb
           config_values lab_field];
      reflexivity. }
  rewrite Hshape, length_map. split.
  - intros Hall. apply Heq in Hall. rewrite Hall, Nat.eqb_refl.
    eexists. split; [reflexivity|]. cbn [plot_dates plot_config].
    split; [reflexivity|].
    destruct m;
      cbn [lab_key Dict.get metric_config String.eqb Ascii.eqb Bool.eqb
           config_values lab_field];
      (split; [reflexivity | now rewrite length_map]).
  - intros Hsome.
    assert (Hlt : (length (available_values (lab_field m) (map snd rows))
                   < length rows)%nat).
    { destruct (Nat.eq_dec
                  (length (available_values (lab_field m) (map snd rows)))
                  (length rows)) as [E|E]; [|lia].
      exfalso. apply Hsome. now apply Heq. }
    split; [|exact Hlt].
    destruct (Nat.eqb_spec (length rows)
                (length (available_values (lab_field m) (map snd rows))))
      as [E|E]; [lia | reflexivity].
Qed.

Lemma graph_lab_series_witness :
  two_rows_chol <> []
  /\ generate_metric_graph two_rows_chol "cholesterol" profile_m30
     = Raises ValueError
  /\ exists plot,
       generate_metric_graph [(2%Z, sample_b_chol)] "cholesterol" profile_m30
       = Returns (Graph plot)
       /\ config_values (plot_config plot) = [180]
       /\ plot_dates plot = [2%Z].
Proof.
  assert (Hne : two_rows_chol <> []) by discriminate.
  assert (Hone : [(2%Z, sample_b_chol)] <> []) by discriminate.
  split; [exact Hne|]. split.
  - apply (proj2 (graph_lab_series two_rows_chol Cholesterol profile_m30 Hne)).
    intros Hall. inversion Hall as [|? ? Hzero _]. discriminate Hzero.
  - destruct (proj1 (graph_lab_series _ Cholesterol profile_m30 Hone))
      as (plot & Hg & Hd & Hv & _).
    + repeat constructor.
    + exists plot. split; [exact Hg|].
      split; [rewrite Hv | rewrite Hd]; reflexivity.
Defined.

(** A metric that every record has, and any unknown name, gives one
    value per date, so the plotting call does not raise. *)
Lemma graph_core_series (records : list (Z * HealthRecord))
    (metric_name : string) (profile : Profile) :
  records <> [] ->
  ~ In metric_name (map lab_key lab_metrics) ->
  exists plot,
    generate_metric_graph records metric_name profile = Returns (Graph plot)
    /\ plot_dates plot = map fst records
    /\ length (config_values (plot_config plot)) = length (plot_dates plot).
Proof.
  intros Hne Hcore. destruct records as [|r rs]; [contradiction|].
  set (rows := r :: rs).
  unfold generate_metric_graph. fold rows. cbv zeta.
  unfold metric_config. cbn [Dict.get String.eqb Ascii.eqb Bool.eqb].
  repeat match goal with
         | |- context [String.eqb metric_name ?s] =>
             let E := fresh "K" in
             destruct (String.eqb metric_name s) eqn:E;
             [apply String.eqb_eq in E | ]
         end.
  all: try (exfalso; apply Hcore; subst metric_name; cbn; tauto).
  all: cbn [config_values]; unfold all_values;
       rewrite !length_map, Nat.eqb_refl.
  all: eexists; (split; [reflexivity|]); split; [reflexivity|].
  all: cbn [plot_dates plot_config config_values];
       now rewrite !length_map.
Qed.

(** ** The views *)

(** What the date filters keep. *)
Lemma filter_dates_spec (date_start date_end : option Z)
    (records : list (Z * HealthRecord)) (row : Z * HealthRecord) :
  In row (filter_dates date_start date_end records)
  <-> In row records
      /\ (forall d, date_start = Some d -> (d <= fst row)%Z)
      /\ (forall d, date_end = Some d -> (fst row <= d)%Z).
Proof.
  unfold filter_dates. cbv zeta.
  destruct date_start as [s|], date_end as [e|];
    rewrite ?filter_In, ?Z.leb_le.
  - split.
    + intros [[Hin Hs] He].
      repeat split; [exact Hin | intros d [= <-] | intros d [= <-]]; assumption.
    + intros (Hin & Hs & He). auto.
  - split.
    + intros [Hin Hs].
      repeat split; [exact Hin | intros d [= <-]; exact Hs | discriminate].
    + intros (Hin & Hs & _). auto.
  - split.
    + intros [Hin He].
      repeat split; [exact Hin | discriminate | intros d [= <-]; exact He].
    + intros (Hin & _ & He). auto.
  - split.
    + intros Hin. repeat split; [exact Hin | discriminate | discriminate].
    + tauto.
Qed.

Lemma queryset_last_in {A : Type} (rows : list A) (x : A) :
  queryset_last rows = Some x -> In x rows.
Proof.
  unfold queryset_last. intros H. apply in_rev.
  destruct (rev rows); [discriminate H|]. injection H as ->. now left.
Qed.

Lemma queryset_first_in {A : Type} (rows : list A) (x : A) :
  queryset_first rows = Some x -> In x rows.
Proof.
  unfold queryset_first. destruct rows; [discriminate|].
  intros [= ->]. now left.
Qed.

Lemma queryset_ends_exist {A : Type} (rows : list A) :
  rows <> [] ->
  exists x y, queryset_first rows = Some x /\ queryset_last rows = Some y.
Proof.
  intros Hne. unfold queryset_first, queryset_last.
  destruct rows as [|x rest]; [contradiction|].
  destruct (rev (x :: rest)) as [|y rest'] eqn:E.
  - apply (f_equal (@length A)) in E. rewrite length_rev in E. discriminate E.
  - exists x, y. auto.
Qed.

Section ViewFacts.

Context {NormalRange : Type}.
Variable show_range : NormalRange -> string.
Variable fmt1 : Q -> string.
Variable methods : RecordMethods NormalRange.

(** X26.  The four answers of the dashboard, in the order of the tests:
    the MFA redirect when MFA is required and not set up; else the
    profile redirect when a name or the birth date is missing; else the
    add-metric redirect when the user has no record; else the page. *)
Theorem dashboard_view_outcomes (acct : Account)
    (latest_record : option HealthRecord) :
  let mfa_missing := requires_mfa acct && negb (mfa_enabled acct) in
  let answer := dashboard_view NormalRange methods acct latest_record in
  ((exists l m, answer = Redirect l m "accounts:mfa_setup")
   <-> mfa_missing = true)
  /\ ((exists l m, answer = Redirect l m "accounts:profile")
      <-> mfa_missing = false /\ profile_complete acct = false)
  /\ ((exists l m, answer = Redirect l m "health_app:add_metric")
      <-> mfa_missing = false /\ profile_complete acct = true
          /\ latest_record = None)
  /\ ((exists t c, answer = Render t c)
      <-> mfa_missing = false /\ profile_complete acct = true
          /\ latest_record <> None).
Proof.
  cbv zeta. unfold dashboard_view, profile_complete.
  destruct (requires_mfa acct && negb (mfa_enabled acct));
    destruct (text_truthy (firstname acct));
    destruct (text_truthy (lastname acct));
    destruct (birthdate acct); destruct latest_record; cbn.
  all: repeat match goal with |- _ /\ _ => split end.
  all: split; intros H.
  all: try solve [destruct H as (? & ? & E); discriminate E].
  all: try solve [repeat split; first [reflexivity | discriminate]].
  all: try solve [do 2 eexists; reflexivity].
  all: try solve [exfalso; intuition (discriminate || congruence)].
Qed.

(** X27.  With at least one record, [history_view] raises [ValueError]
    when a given date text is no date, and raises what the graph call
    raises; otherwise it renders the page.  The page carries a
    comparison, and with it a summary, exactly when at least two records
    pass the date filters; the comparison is then between the first and
    the last of them, both records of the user inside the chosen
    dates. *)
Theorem history_view_comparison (strptime_date : string -> option Z)
    (strftime_date : Z -> string) (records : list (Z * HealthRecord))
    (metric : option string) (date_start_str date_end_str : string)
    (profile : Profile) :
  records <> [] ->
  let view :=
    history_view NormalRange show_range fmt1 methods strptime_date
      strftime_date records metric date_start_str date_end_str profile in
  let metric_filter := match metric with Some m => m | None => "bmi" end in
  (parse_date_filter strptime_date date_start_str = Raises ValueError ->
   view = Raises ValueError)
  /\ (forall date_start,
        parse_date_filter strptime_date date_start_str = Returns date_start ->
        parse_date_filter strptime_date date_end_str = Raises ValueError ->
        view = Raises ValueError)
  /\ (forall date_start date_end,
        parse_date_filter strptime_date date_start_str = Returns date_start ->
        parse_date_filter strptime_date date_end_str = Returns date_end ->
        let filtered := filter_dates date_start date_end records in
        (forall e,
            generate_metric_graph filtered metric_filter profile = Raises e ->
            view = Raises e)
        /\ (forall graph,
              generate_metric_graph filtered metric_filter profile
              = Returns graph ->
              exists context,
                view = Returns (Render "health_app/history.html" context)
                /\ hist_graph _ context = graph
                /\ (hist_comparison_data _ context = None
                    <-> (length filtered < 2)%nat)
                /\ (hist_summary_info _ context = None
                    <-> hist_comparison_data _ context = None)
                /\ (forall comparison,
                      hist_comparison_data _ context = Some comparison ->
                      exists first_filtered last_filtered,
                        queryset_first filtered = Some first_filtered
                        /\ queryset_last filtered = Some last_filtered
                        /\ comparison
                           = generate_comparison_table NormalRange fmt1 methods
                               (snd first_filtered) (snd last_filtered) profile
                        /\ In first_filtered records
                        /\ In last_filtered records
                        /\ (forall d, date_start = Some d ->
                                      (d <= fst first_filtered)%Z)
                        /\ (forall d, date_end = Some d ->
                                      (fst last_filtered <= d)%Z)))).
Proof.
  intros Hne. cbv zeta. unfold history_view.
  destruct records as [|r0 rest]; [contradiction|].
  set (records := r0 :: rest).
  set (metric_filter := match metric with Some m => m | None => "bmi" end).
  split; [intros ->; reflexivity|].
  split; [intros ds -> ->; reflexivity|].
  intros ds de -> ->. cbv zeta.
  set (filtered := filter_dates ds de records).
  split; [intros e ->; reflexivity|].
  intros graph ->.
  destruct (2 <=? length filtered)%nat eqn:Hcount.
  - apply Nat.leb_le in Hcount.
    assert (Hfne : filtered <> []).
    { intros E. rewrite E in Hcount. cbn in Hcount. lia. }
    destruct (queryset_ends_exist filtered Hfne) as (f1 & f2 & Hf1 & Hf2).
    rewrite Hf1, Hf2.
    destruct (summary_total show_range fmt1 methods (snd f1) (snd f2) profile)
      as (s1 & s2 & s3 & s4 & s5 & s6 & s7 & ->).
    eexists. split; [reflexivity|]. cbn.
    split; [reflexivity|].
    split; [split; [discriminate | lia]|].
    split; [split; discriminate|].
    intros comparison [= <-]. exists f1, f2.
    apply queryset_first_in in Hf1 as Hin1.
    apply queryset_last_in in Hf2 as Hin2.
    apply filter_dates_spec in Hin1, Hin2.
    destruct Hin1 as (Hin1 & Hs1 & _). destruct Hin2 as (Hin2 & _ & He2).
    repeat split; auto.
  - apply Nat.leb_gt in Hcount.
    eexists. split; [reflexivity|]. cbn.
    split; [reflexivity|].
    split; [tauto|]. split; [tauto|]. discriminate.
Qed.

End ViewFacts.

Lemma history_view_comparison_witness :
  two_rows <> []
  /\ history_view string demo_show demo_fmt1 demo_methods demo_strptime
       demo_strftime two_rows None "yesterday" "" profile_m30
     = Raises ValueError
  /\ exists context,
       history_view string demo_show demo_fmt1 demo_methods demo_strptime
         demo_strftime two_rows None "2024-01-02" "" profile_m30
       = Returns (Render "health_app/history.html" context)
       /\ hist_comparison_data _ context = None.
Proof.
  assert (Hne : two_rows <> []) by discriminate.
  split; [exact Hne|]. split.
  - exact (proj1 (history_view_comparison demo_show demo_fmt1 demo_methods
                    demo_strptime demo_strftime two_rows None "yesterday" ""
                    profile_m30 Hne) eq_refl).
  - pose proof (history_view_comparison demo_show demo_fmt1 demo_methods
                  demo_strptime demo_strftime two_rows None "2024-01-02" ""
                  profile_m30 Hne) as Hview.
    cbv zeta in Hview. destruct Hview as (_ & _ & Hview).
    destruct (Hview (Some 2%Z) None eq_refl eq_refl) as [_ Hrender].
    destruct (Hrender _ eq_refl) as (context & Hv & _ & Hc & _).
    exists context. split; [exact Hv|]. apply Hc. cbn. lia.
Defined.

(** ** The writing views *)

(** Under unique keys a key names one row. *)
Lemma unique_key_row (rows : list Row) (r r' : Row) :
  NoDup (map row_id rows) -> In r rows -> In r' rows ->
  row_id r = row_id r' -> r = r'.
Proof.
  induction rows as [|x rest IH]; cbn; [tauto|].
  intros Hnd [<-|Hr] [<-|Hr'] Hid; inversion Hnd as [|? ? Hnotin Hrest]; subst.
  - reflexivity.
  - exfalso. apply Hnotin. rewrite Hid. now apply in_map.
  - exfalso. apply Hnotin. rewrite <- Hid. now apply in_map.
  - now apply IH.
Qed.

Section WritingViewFacts.

Variable show_stamp : Z -> string.

(** X28.  [add_metric_view] only appends: the stored rows and the log
    keep what they had.  It adds one row, owned by the requesting user,
    and one log line for it, exactly when the profile is complete, the
    method is POST and the form is valid; otherwise it adds nothing. *)
Theorem add_metric_view_effect (request : Request) (new_id : Z) (db : Database) :
  let db' := fst (add_metric_view show_stamp request new_id db) in
  let writes :=
    profile_complete (request_account request)
    && String.eqb (request_method request) "POST"
    && match posted_form request with Some _ => true | None => false end in
  exists (added : list Row) (logged : list UserActivity),
    health_records db' = (health_records db ++ added)%list
    /\ user_activities db' = (user_activities db ++ logged)%list
    /\ length added = (if writes then 1 else 0)%nat
    /\ length logged = length added
    /\ Forall (fun row => row_user row = request_user request
                          /\ row_id row = new_id) added
    /\ Forall (fun act => activity_user act = request_user request
                          /\ activity_action act = "health_record_add") logged.
Proof.
  cbv zeta. unfold add_metric_view, profile_complete.
  destruct (text_truthy (firstname (request_account request)));
    destruct (text_truthy (lastname (request_account request)));
    destruct (birthdate (request_account request));
    cbn [negb orb andb fst];
    try (exists [], []; rewrite !app_nil_r; repeat split; constructor).
  destruct (String.eqb (request_method request) "POST");
    [|exists [], []; rewrite !app_nil_r; repeat split; constructor].
  destruct (posted_form request) as [[stamp fields]|];
    [|exists [], []; rewrite !app_nil_r; repeat split; constructor].
  cbn. eexists [_], [_]. repeat split; repeat constructor.
Qed.

(** X29.  [update_record_view] raises [Http404] exactly when no stored
    row has the asked key and belongs to the requesting user, and then it
    writes nothing. *)
Theorem update_record_view_not_found (request : Request) (record_id : Z)
    (db : Database) :
  (snd (update_record_view show_stamp request record_id db) = Http404
   <-> ~ exists row, In row (health_records db)
                     /\ row_id row = record_id
                     /\ row_user row = request_user request)
  /\ (snd (update_record_view show_stamp request record_id db) = Http404 ->
      fst (update_record_view show_stamp request record_id db) = db).
Proof.
  unfold update_record_view, get_object_or_404.
  destruct (find _ (health_records db)) as [found|] eqn:F.
  - apply find_some in F. destruct F as [Hin Hmatch].
    apply andb_true_iff in Hmatch. rewrite !Z.eqb_eq in Hmatch.
    destruct (String.eqb (request_method request) "POST");
      [destruct (posted_form request) as [[? ?]|]|]; cbn [fst snd];
      (split;
       [ split; [discriminate
                | intros Hno; exfalso; apply Hno; exists found; tauto]
       | discriminate ]).
  - cbn. split; [|reflexivity]. split; [|reflexivity].
    intros _ (row & Hin & Hid & Hu).
    apply (find_none _ _ F) in Hin. rewrite Hid, Hu, !Z.eqb_refl in Hin.
    discriminate Hin.
Qed.

(** X30.  With unique keys, [update_record_view] keeps the keys and the
    owners of all rows, and leaves untouched every row of another user
    and every row with another key. *)
Theorem update_record_view_isolation (request : Request) (record_id : Z)
    (db : Database) :
  NoDup (map row_id (health_records db)) ->
  let rows' := health_records (fst (update_record_view show_stamp request
                                      record_id db)) in
  map row_id rows' = map row_id (health_records db)
  /\ map row_user rows' = map row_user (health_records db)
  /\ (forall row, In row (health_records db) ->
                  row_user row <> request_user request \/ row_id row <> record_id ->
                  In row rows').
Proof.
  intros Hkeys. cbv zeta. unfold update_record_view, get_object_or_404.
  destruct (find _ (health_records db)) as [found|] eqn:F;
    [|cbn; auto].
  apply find_some in F. destruct F as [Hin Hmatch].
  apply andb_true_iff in Hmatch. rewrite !Z.eqb_eq in Hmatch.
  destruct Hmatch as [Hid Huser].
  destruct (String.eqb (request_method request) "POST"); [|cbn; auto].
  destruct (posted_form request) as [[stamp fields]|]; [|cbn; auto].
  cbn [fst health_records log_health_activity]. unfold save_instance. cbn [row_id].
  assert (Hrow : forall row, In row (health_records db) ->
            (row_id row =? row_id found)%Z = true -> row = found).
  { intros row Hr E. apply Z.eqb_eq in E.
    now apply (unique_key_row (health_records db)). }
  repeat split.
  - rewrite map_map. apply map_ext_in. intros row Hr.
    destruct (row_id row =? row_id found)%Z eqn:E; [|reflexivity].
    cbn. now apply Z.eqb_eq in E.
  - rewrite map_map. apply map_ext_in. intros row Hr.
    destruct (row_id row =? row_id found)%Z eqn:E; [|reflexivity].
    cbn. now rewrite (Hrow row Hr E).
  - intros row Hr Hother. apply in_map_iff. exists row. split; [|exact Hr].
    destruct (row_id row =? row_id found)%Z eqn:E; [|reflexivity].
    exfalso. rewrite (Hrow row Hr E) in Hother. tauto.
Qed.

End WritingViewFacts.

Lemma update_record_view_isolation_witness :
  NoDup (map row_id (health_records demo_database))
  /\ map row_user
       (health_records
          (fst (update_record_view demo_show_stamp demo_update 1 demo_database)))
     = [7%Z; 8%Z]
  /\ In {| row_id := 2; row_user := 8; row_recorded_at := 2;
           row_record := sample_b |}
       (health_records
          (fst (update_record_view demo_show_stamp demo_update 1 demo_database))).
Proof.
  assert (Hkeys : NoDup (map row_id (health_records demo_database))).
  { cbn. repeat constructor; cbn; intuition discriminate. }
  split; [exact Hkeys|].
  destruct (update_record_view_isolation demo_show_stamp demo_update 1
              demo_database Hkeys) as (_ & Husers & Hrows).
  split; [exact Husers|].
  apply Hrows; [cbn; auto | left; discriminate].
Defined.
